(** * dodotable: filters, ordering and paging of a declarative table

    A shallow embedding of [dodotable/util.py], [dodotable/exc.py],
    [dodotable/condition.py], [dodotable/schema.py] and
    [dodotable/helper.py].

    - Python values that reach the code from the request are [PyVal];
      request arguments are a finite map from strings to strings.
    - SQLAlchemy expressions are an abstract syntax ([expr], [pred],
      [order_term], [Query]); the session is a record of two functions
      (fetch the rows of a query, count them).
    - Exceptions are the type [exn]; a computation that may raise is a
      [result]; a method that mutates objects runs in the monad [M] over
      the [World] (column objects by reference, and the table).
    - Strings are byte strings; [str.strip] and [int] follow Python 3 on
      the ASCII range.  Floats are not modelled. *)

From Stdlib Require Import ZArith Ascii String List Lia Bool.
From stdpp Require Import base option list sorting strings gmap.

Local Open Scope string_scope.
Local Open Scope list_scope.

(** ** Python values, exceptions, results *)

Module Py.

#[warnings="-register-all"]
Inductive PyVal :=
| PyNone
| PyBool (b : bool)
| PyInt (z : Z)
| PyStr (s : string)
| PyTuple (items : list PyVal).

(** The exception classes that the modelled code can meet.  [BadChoice] is
    an instance of [dodotable.exc.BadChoice] with its positional arguments;
    [OtherError] stands for any further class, by name. *)
Inductive exn :=
| BadChoice (args : list string)
| ValueError
| TypeError
| NameError (name : string)
| IndexError
| AttributeError
| ZeroDivisionError
| OtherError (cls : string).

Inductive result (A : Type) :=
| Ok (a : A)
| Raise (e : exn).
Arguments Ok {A} a.
Arguments Raise {A} e.

Definition bind {A B} (r : result A) (k : A -> result B) : result B :=
  match r with
  | Ok a => k a
  | Raise e => Raise e
  end.

Definition raises {A} (r : result A) : Prop := exists e, r = Raise e.

(** [bool(v)] *)
Definition truthy (v : PyVal) : bool :=
  match v with
  | PyNone => false
  | PyBool b => b
  | PyInt z => negb (z =? 0)%Z
  | PyStr s => negb (String.eqb s "")
  | PyTuple l => match l with [] => false | _ :: _ => true end
  end.

(** [isinstance(v, string_types)] *)
Definition is_string (v : PyVal) : bool :=
  match v with PyStr _ => true | _ => false end.

(** truth value of the result of [Mapping.get]: [None] and [''] are false *)
Definition truthy_opt (s : option string) : bool :=
  match s with
  | None => false
  | Some s => negb (String.eqb s "")
  end.

(** ['{}'.format(x)] for [x] a string or [None] *)
Definition format_opt (s : option string) : string :=
  match s with
  | None => "None"
  | Some s => s
  end.

Definition opt_to_val (s : option string) : PyVal :=
  match s with
  | None => PyNone
  | Some s => PyStr s
  end.

(** *** Strings *)

Definition is_space (c : ascii) : bool :=
  let n := nat_of_ascii c in
  ((9 <=? n) && (n <=? 13) || (28 <=? n) && (n <=? 32))%nat.

Fixpoint lstrip (s : string) : string :=
  match s with
  | EmptyString => EmptyString
  | String c s' => if is_space c then lstrip s' else s
  end.

Fixpoint rstrip (s : string) : string :=
  match s with
  | EmptyString => EmptyString
  | String c s' =>
      let r := rstrip s' in
      if is_space c && String.eqb r "" then EmptyString else String c r
  end.

(** [s.strip()] *)
Definition strip (s : string) : string := rstrip (lstrip s).

(** [s.split(sep)] for a one-character separator *)
Fixpoint split (sep : ascii) (s : string) : list string :=
  match s with
  | EmptyString => [EmptyString]
  | String c s' =>
      let r := split sep s' in
      if Ascii.eqb c sep then EmptyString :: r
      else match r with
           | t :: ts => String c t :: ts
           | [] => [String c EmptyString]
           end
  end.

Fixpoint lower (s : string) : string :=
  match s with
  | EmptyString => EmptyString
  | String c s' =>
      let n := nat_of_ascii c in
      String (if ((65 <=? n) && (n <=? 90))%nat then ascii_of_nat (n + 32) else c)
             (lower s')
  end.

(** *** [int] *)

Definition digit_of (c : ascii) : option Z :=
  let n := nat_of_ascii c in
  if ((48 <=? n) && (n <=? 57))%nat then Some (Z.of_nat (n - 48)) else None.

(** digits, with single underscores between digits *)
Fixpoint parse_digits (acc : Z) (after_digit : bool) (s : string) : option Z :=
  match s with
  | EmptyString => if after_digit then Some acc else None
  | String c s' =>
      match digit_of c with
      | Some d => parse_digits (10 * acc + d)%Z true s'
      | None =>
          if Ascii.eqb c "_" && after_digit then parse_digits acc false s'
          else None
      end
  end.

Definition parse_int (s : string) : option Z :=
  match strip s with
  | String "-" s' => Z.opp <$> parse_digits 0 false s'
  | String "+" s' => parse_digits 0 false s'
  | s' => parse_digits 0 false s'
  end.

(** [int(v)]: a [ValueError] for a string that is not a decimal literal, a
    [TypeError] for [None] and for a tuple *)
Definition int (v : PyVal) : result Z :=
  match v with
  | PyInt z => Ok z
  | PyBool b => Ok (if b then 1 else 0)%Z
  | PyStr s =>
      match parse_int s with
      | Some z => Ok z
      | None => Raise ValueError
      end
  | PyNone | PyTuple _ => Raise TypeError
  end.

(** *** Objects with attributes

    An object is a payload with named attributes, themselves objects:
    a mapped class with its column attributes, or a record fetched from
    the database with its fields and related records. *)

#[warnings="-register-all"]
Inductive obj (A : Type) :=
| Obj (self : A) (attrs : list (string * obj A)).
Arguments Obj {A} self attrs.

Definition self_of {A} (o : obj A) : A :=
  match o with Obj a _ => a end.

Definition attrs_of {A} (o : obj A) : list (string * obj A) :=
  match o with Obj _ l => l end.

Fixpoint assoc {B} (name : string) (l : list (string * B)) : option B :=
  match l with
  | [] => None
  | (k, v) :: l' => if String.eqb k name then Some v else assoc name l'
  end.

(** [getattr(o, name)] *)
Definition getattr {A} (o : obj A) (name : string) : result (obj A) :=
  match assoc name (attrs_of o) with
  | Some v => Ok v
  | None => Raise AttributeError
  end.

(** [m.get(key, default)] on the request arguments *)
Definition get (m : gmap string string) (key : string)
    (default : option string) : option string :=
  match m !! key with
  | Some v => Some v
  | None => default
  end.

End Py.
Import Py.

#[global] Instance result_ret : MRet result := @Ok.
#[global] Instance result_bind : MBind result := fun A B k r => Py.bind r k.
#[global] Instance result_fmap : FMap result :=
  fun A B f r => Py.bind r (fun a => Ok (f a)).

(** ** [dodotable.exc] *)

Module Exc.

(** A call of the class [BadChoice], with its positional and its keyword
    arguments.  The class derives from
    [Exception] and defines neither [__init__] nor [__new__], and
    [Exception] takes positional arguments only: a call with a keyword
    argument raises [TypeError] and builds no instance. *)
Definition BadChoice (args : list string) (kwargs : list (string * string))
    : result exn :=
  match kwargs with
  | [] => Ok (Py.BadChoice args)
  | _ :: _ => Raise TypeError
  end.

End Exc.

(** ** [dodotable.util] *)

Module Util.

Definition is_upper (c : ascii) : bool :=
  let n := nat_of_ascii c in ((65 <=? n) && (n <=? 90))%nat.
Definition is_lower (c : ascii) : bool :=
  let n := nat_of_ascii c in ((97 <=? n) && (n <=? 122))%nat.
Definition is_digit (c : ascii) : bool :=
  let n := nat_of_ascii c in ((48 <=? n) && (n <=? 57))%nat.
Definition is_newline (c : ascii) : bool := (nat_of_ascii c =? 10)%nat.

(** the longest prefix of lower-case letters, and the rest *)
Fixpoint span_lower (s : string) : string * string :=
  match s with
  | String c s' =>
      if is_lower c then let '(l, r) := span_lower s' in (String c l, r)
      else (EmptyString, s)
  | EmptyString => (EmptyString, EmptyString)
  end.

(** [first_cap_re.sub(r'\1_\2', s)] with
    [first_cap_re = re.compile('(.)([A-Z][a-z]+)')]: the matches are taken
    from the left and do not overlap; [fuel] bounds the number of
    positions visited. *)
Fixpoint first_cap_sub (fuel : nat) (s : string) : string :=
  match fuel with
  | O => s
  | S fuel' =>
      match s with
      | String c (String u (String l rest)) =>
          if negb (is_newline c) && is_upper u && is_lower l then
            let '(run, rest') := span_lower rest in
            String c (String "_" (String u (String l (run +:+ first_cap_sub fuel' rest'))))
          else String c (first_cap_sub fuel' (String u (String l rest)))
      | String c s' => String c (first_cap_sub fuel' s')
      | EmptyString => EmptyString
      end
  end.

(** [all_cap_re.sub(r'\1_\2', s)] with
    [all_cap_re = re.compile('([a-z0-9])([A-Z])')] *)
Fixpoint all_cap_sub (fuel : nat) (s : string) : string :=
  match fuel with
  | O => s
  | S fuel' =>
      match s with
      | String c (String u rest) =>
          if (is_lower c || is_digit c) && is_upper u then
            String c (String "_" (String u (all_cap_sub fuel' rest)))
          else String c (all_cap_sub fuel' (String u rest))
      | String c EmptyString => s
      | EmptyString => EmptyString
      end
  end.

Definition camel_to_underscore (name : string) : string :=
  let s1 := first_cap_sub (String.length name) name in
  lower (all_cap_sub (String.length s1) s1).


(** [_get_data(data, attribute_name, default)]: follow the dotted path, and
    give [default] as soon as an attribute is missing. *)
Fixpoint __data__ {A} (default _data : obj A) (name_chain : list string) : obj A :=
  match name_chain with
  | [] => _data
  | n :: name_chain' =>
      match getattr _data n with
      | Ok d => __data__ default d name_chain'
      | Raise _ => default
      end
  end.

Definition _get_data {A} (data : obj A) (attribute_name : string)
    (default : obj A) : obj A :=
  let name_chain := split "." attribute_name in
  __data__ default data name_chain.

End Util.

(** ** SQL expressions, as far as the filters build them *)

Module Sql.

Inductive expr :=
| EClass (name : string)          (* a mapped class *)
| EAttr (cls attr : string)       (* an attribute of a mapped class *)
| EAlias (name : string)          (* a labelled expression *)
| EText (s : string)              (* a bare string used as an expression *)
| ESelectable.                    (* a [Query] object *)

#[warnings="-register-all"]
Inductive pred :=
| in_ (e : expr) (values : list string)
| equals (e : expr) (v : PyVal)
| is_null (e : expr)
| isnot_null (e : expr)
| ilike (e : expr) (pattern : string)
| false_
| or_ (clauses : list pred).

Inductive order_term :=
| asc (e : expr)
| desc (e : expr).

(** a mapped class: [cls.__name__] and the attributes [getattr] finds *)
Record Class := {
  cls__name : string;
  cls_attrs : list (string * obj expr)
}.

Definition class_obj (c : Class) : obj expr :=
  Obj (EClass (cls__name c)) (cls_attrs c).

Record Query := {
  q_entity : option Class;
  q_filter : list pred;
  q_order_by : list order_term;
  q_offset : option PyVal;
  q_limit : option PyVal
}.

Definition filter (q : Query) (p : pred) : Query :=
  {| q_entity := q_entity q; q_filter := q_filter q ++ [p];
     q_order_by := q_order_by q; q_offset := q_offset q; q_limit := q_limit q |}.

Definition order_by (q : Query) (terms : list order_term) : Query :=
  {| q_entity := q_entity q; q_filter := q_filter q;
     q_order_by := q_order_by q ++ terms; q_offset := q_offset q;
     q_limit := q_limit q |}.

Definition offset (q : Query) (n : PyVal) : Query :=
  {| q_entity := q_entity q; q_filter := q_filter q;
     q_order_by := q_order_by q; q_offset := Some n; q_limit := q_limit q |}.

Definition limit (q : Query) (n : PyVal) : Query :=
  {| q_entity := q_entity q; q_filter := q_filter q;
     q_order_by := q_order_by q; q_offset := q_offset q; q_limit := Some n |}.

(** [Table.cls]: a mapped class, or a [Query] to start from *)
Inductive source :=
| Mapped (c : Class)
| FromQuery (q : Query).

(** the object [getattr] sees; a [Query] carries none of the names the
    columns ask for *)
Definition source_obj (s : source) : obj expr :=
  match s with
  | Mapped c => class_obj c
  | FromQuery _ => Obj ESelectable []
  end.

(** [cls.__name__] *)
Definition source__name (s : source) : result string :=
  match s with
  | Mapped c => Ok (cls__name c)
  | FromQuery _ => Raise AttributeError
  end.

End Sql.
Import Sql.

(** ** [dodotable.condition.Order] *)

Module Order.

Inductive direction := DESCENDANT | ASCENDANT.

Definition direction_name (d : direction) : string :=
  match d with
  | DESCENDANT => "desc"
  | ASCENDANT => "asc"
  end.

Record t := {
  cls : source;
  order : direction;
  attribute : obj expr
}.

Definition init (cls : source) (attribute_name : string)
    (order : option direction) : t :=
  {| cls := cls;
     order := match order with Some o => o | None => DESCENDANT end;
     attribute := Util._get_data (source_obj cls) attribute_name
                    (Obj (EText attribute_name) []) |}.

Definition asc_order_name (attr : string) : string :=
  attr +:+ "." +:+ direction_name ASCENDANT.

Definition desc_order_name (attr : string) : string :=
  attr +:+ "." +:+ direction_name DESCENDANT.

(** one turn of the loop [for o in order_by.split(',')] *)
Definition of_column_step (asc_order desc_order : string)
    (order : option direction) (o : string) : option direction :=
  if String.eqb (strip o) asc_order then Some ASCENDANT
  else if String.eqb (strip o) desc_order then Some DESCENDANT
  else order.

Definition of_column (attr : string) (order_by : PyVal) : option direction :=
  let asc_order := asc_order_name attr in
  let desc_order := desc_order_name attr in
  let order := None in
  if negb (truthy order_by) || negb (is_string order_by) then None
  else
    match order_by with
    | PyStr s => fold_left (of_column_step asc_order desc_order) (split "," s) order
    | _ => None
    end.

Definition query (self : t) : order_term :=
  match order self with
  | DESCENDANT => desc (self_of (attribute self))
  | ASCENDANT => asc (self_of (attribute self))
  end.

End Order.

(** ** [dodotable.condition]: the filters *)

(** [create_search_name(name)]: the dictionary with the keys ['word'] and
    ['type'] *)
Record search_name := { word : string; type : string }.

Definition create_search_name (name : string) : search_name :=
  {| word := "search_" +:+ name +:+ ".word";
     type := "search_" +:+ name +:+ ".type" |}.

Module SelectFilter.

Record choice := { name : string; description : string }.

Record t := {
  cls : Class;
  attribute : expr;
  attribute_name : string;
  request_args : gmap string string;
  choices : list choice;
  default : option string
}.

Definition init (cls : Class) (attribute_name : string) (choices : list choice)
    (request_args : gmap string string) (default : option string) : result t :=
  attribute ← getattr (class_obj cls) attribute_name;
  Ok {| cls := cls; attribute := self_of attribute;
        attribute_name := attribute_name; request_args := request_args;
        choices := {| name := "all"; description := "모두" |} :: choices;
        default := default |}.

Definition arg_name (self : t) : string := "select." +:+ attribute_name self.

Definition mem (s : string) (l : list string) : bool :=
  existsb (String.eqb s) l.

Definition mem_opt (s : option string) (l : list string) : bool :=
  match s with
  | Some s => mem s l
  | None => false
  end.

Definition query (self : t) : result (option pred) :=
  let arg_name := "select." +:+ attribute_name self in
  let s := Py.get (request_args self) arg_name (default self) in
  let choices := name <$> choices self in
  if negb (truthy_opt s) then Ok (Some (in_ (attribute self) choices))
  else if negb (mem_opt s choices) then
    e ← Exc.BadChoice [] [("description",
                           "Invalid choices for `" +:+ arg_name +:+ "`: " +:+ format_opt s)];
    Raise e
  else if bool_decide (s = Some "all") then Ok None
  else Ok (Some (equals (attribute self) (opt_to_val s))).

End SelectFilter.

Module NullSelectableSelectFilter.

Definition NULL : string := "null".
Definition NOT_NULL : string := "not-null".

(** the object is a [SelectFilter] one; only [__query__] is overridden *)
Definition query (self : SelectFilter.t) : result (option pred) :=
  q ← SelectFilter.query self;
  let arg_name := "select." +:+ SelectFilter.attribute_name self in
  let s := Py.get (SelectFilter.request_args self) arg_name
             (SelectFilter.default self) in
  if bool_decide (s = Some NULL) then Ok (Some (is_null (SelectFilter.attribute self)))
  else if bool_decide (s = Some NOT_NULL) then
    Ok (Some (isnot_null (SelectFilter.attribute self)))
  else Ok q.

End NullSelectableSelectFilter.

Module Ilike.

Record t := {
  cls : Class;
  attribute : expr;
  attribute_name : string;
  request_args : gmap string string
}.

Definition init (cls : Class) (attribute_name : string)
    (request_args : gmap string string) : result t :=
  attribute ← getattr (class_obj cls) attribute_name;
  Ok {| cls := cls; attribute := self_of attribute;
        attribute_name := attribute_name; request_args := request_args |}.

Definition query (self : t) : result (option pred) :=
  let name := create_search_name (Util.camel_to_underscore (cls__name (cls self))) in
  let type_ := Py.get (request_args self) (type name) None in
  let word := Py.get (request_args self) (word name) None in
  let q := None in
  if bool_decide (type_ = Some (attribute_name self)) then
    Ok (Some (ilike (attribute self) ("%" +:+ format_opt word +:+ "%")))
  else Ok q.

End Ilike.

Module IlikeAlias.

Record alias := { alias_name : string }.

Record t := {
  identifier : string;
  alias_attr : alias;
  request_args : gmap string string
}.

Definition init (identifier : string) (alias_attr : alias)
    (request_args : gmap string string) : t :=
  {| identifier := identifier; alias_attr := alias_attr;
     request_args := request_args |}.

Definition query (self : t) : result (option pred) :=
  let name := create_search_name (identifier self) in
  let word := Py.get (request_args self) (word name) None in
  let type := Py.get (request_args self) (type name) None in
  let q := None in
  if truthy_opt word && bool_decide (type = Some (alias_name (alias_attr self))) then
    Ok (Some (ilike (EAlias (alias_name (alias_attr self)))
                ("%" +:+ format_opt word +:+ "%")))
  else Ok q.

End IlikeAlias.

Module Equal.

(** [type_] is the callable that coerces the word: [int], [Decimal], ... *)
Record t := {
  base : Ilike.t;
  type_ : PyVal -> result PyVal
}.

Definition init (cls : Class) (attribute_name : string)
    (type_ : PyVal -> result PyVal) (request_args : gmap string string) : result t :=
  base ← Ilike.init cls attribute_name request_args;
  Ok {| base := base; type_ := type_ |}.

Definition query (self : t) : result (option pred) :=
  let name := create_search_name
                (Util.camel_to_underscore (cls__name (Ilike.cls (base self)))) in
  let type_ := Py.get (Ilike.request_args (base self)) (type name) None in
  let word := Py.get (Ilike.request_args (base self)) (word name) None in
  let q := None in
  if bool_decide (type_ = Some (Ilike.attribute_name (base self))) then
    match Equal.type_ self (opt_to_val word) with
    | Ok v => Ok (Some (equals (Ilike.attribute (base self)) v))
    | Raise ValueError => Ok (Some false_)
    | Raise e => Raise e
    end
  else Ok q.

End Equal.

Module EqualAlias.

Record t := {
  base : IlikeAlias.t;
  type_ : PyVal -> result PyVal
}.

Definition init (identifier : string) (alias_attr : IlikeAlias.alias)
    (type_ : PyVal -> result PyVal) (request_args : gmap string string) : t :=
  {| base := IlikeAlias.init identifier alias_attr request_args; type_ := type_ |}.

Definition query (self : t) : result (option pred) :=
  let name := create_search_name (IlikeAlias.identifier (base self)) in
  let word := Py.get (IlikeAlias.request_args (base self)) (word name) None in
  let type := Py.get (IlikeAlias.request_args (base self)) (type name) None in
  let q := None in
  if truthy_opt word
     && bool_decide (type = Some (IlikeAlias.alias_name (IlikeAlias.alias_attr (base self))))
  then
    match EqualAlias.type_ self (opt_to_val word) with
    | Ok v => Ok (Some (equals (EAlias (IlikeAlias.alias_name (IlikeAlias.alias_attr (base self)))) v))
    | Raise ValueError => Ok (Some false_)
    | Raise e => Raise e
    end
  else Ok q.

End EqualAlias.

(** the class [Ilike] and its subclasses: what [isinstance(f, Ilike)] accepts *)
Inductive ilike_instance :=
| AnIlike (f : Ilike.t)
| AnIlikeAlias (f : IlikeAlias.t)
| AnEqual (f : Equal.t)
| AnEqualAlias (f : EqualAlias.t).

(** the class [SelectFilter] and its subclasses ([Category] is in
    [dodotable.helper] and keeps [SelectFilter.__query__]) *)
Inductive select_instance :=
| ASelectFilter (f : SelectFilter.t)
| ANullSelectableSelectFilter (f : SelectFilter.t)
| ACategory (f : SelectFilter.t).

(** [f.__query__()] by the class of [f] *)
Definition ilike_instance_query (f : ilike_instance) : result (option pred) :=
  match f with
  | AnIlike f => Ilike.query f
  | AnIlikeAlias f => IlikeAlias.query f
  | AnEqual f => Equal.query f
  | AnEqualAlias f => EqualAlias.query f
  end.

Definition select_instance_query (f : select_instance) : result (option pred) :=
  match f with
  | ASelectFilter f => SelectFilter.query f
  | ANullSelectableSelectFilter f => NullSelectableSelectFilter.query f
  | ACategory f => SelectFilter.query f
  end.

(** the fields of an [IlikeSet]; [self.table] is the table of the [World]
    below, and the methods come once the table is defined *)
Record IlikeSetObj := {
  arg_name : string;
  arg_type_name : string;
  request_args : gmap string string
}.

(** [dodotable.helper.Limit] *)
Module Limit.

Record t := {
  request_args : gmap string string;
  arg_type_name : string
}.

Definition init (table_cls : source) (request_args : gmap string string)
    (identifier : option string) : result t :=
  identifier ← (if negb (truthy_opt identifier)
                then Util.camel_to_underscore <$> source__name table_cls
                else Ok (format_opt identifier));
  Ok {| request_args := request_args; arg_type_name := "limit_" +:+ identifier |}.

Definition query (self : t) : result (option pred) := Ok None.

End Limit.

Inductive Filter :=
| FIlike (f : ilike_instance)
| FSelect (f : select_instance)
| FIlikeSet (f : IlikeSetObj)
| FLimit (f : Limit.t).

(** [isinstance(f, Ilike)] *)
Definition isinstance_Ilike (f : Filter) : bool :=
  match f with FIlike _ => true | _ => false end.

(** ** [dodotable.schema] *)

Module Cell.

(** a [Cell] carries the formatter and the classes of its column; a
    [LinkedCell] carries its [url] instead *)
Inductive t :=
| Cell (col row : nat) (data : obj PyVal) (_repr : obj PyVal -> string)
       (classes : list string)
| LinkedCell (col row : nat) (data : obj PyVal) (url : string).

Definition data (c : t) : obj PyVal :=
  match c with
  | Cell _ _ d _ _ => d
  | LinkedCell _ _ d _ => d
  end.

End Cell.

Module Column.

Inductive endpoint :=
| Url (s : string)
| Callable (f : obj PyVal -> string).

(** [Column], [LinkedColumn], [ObjectColumn], [HiddenColumn] *)
Inductive variety :=
| Plain
| Linked (e : endpoint)
| Object
| Hidden.

Record t := {
  label : string;
  attr : string;
  filters : list Filter;
  order_by : option Order.direction;
  _repr : obj PyVal -> string;
  sortable : bool;
  visible : bool;
  editable : bool;
  classes : list string;
  variety_of : variety
}.

Definition init (v : variety) (label attr : string) (order_by : PyVal)
    (filters : option (list Filter)) (_repr : obj PyVal -> string)
    (sortable visible editable : bool) (classes : list string) : t :=
  let filters := match filters with None => [] | Some l => l end in
  {| label := label; attr := attr; filters := filters;
     order_by := Order.of_column attr order_by;
     _repr := _repr;
     sortable := sortable;
     visible := match v with Hidden => false | _ => visible end;
     editable := editable; classes := classes; variety_of := v |}.

Definition set_order_by (o : option Order.direction) (c : t) : t :=
  {| label := label c; attr := attr c; filters := filters c; order_by := o;
     _repr := _repr c; sortable := sortable c; visible := visible c; editable := editable c;
     classes := classes c; variety_of := variety_of c |}.

(** [col.__cell__(col=, row=, data=, attribute_name=)], with [default=None];
    a record is a true object, so [ObjectColumn] keeps it *)
Definition cell (self : t) (col row : nat) (data : obj PyVal)
    (attribute_name : string) : Cell.t :=
  let default := Obj PyNone [] in
  match variety_of self with
  | Linked e =>
      let endpoint := match e with Callable f => f data | Url s => s end in
      Cell.LinkedCell col row (Util._get_data data attribute_name default) endpoint
  | Object => Cell.Cell col row data (_repr self) (classes self)
  | Plain | Hidden =>
      Cell.Cell col row (Util._get_data data attribute_name default)
        (_repr self) (classes self)
  end.

End Column.

Module Pager.

Definition DEFAULT_LIMIT : Z := 10.
Definition DEFAULT_OFFSET : Z := 0.

Module Page.
Record t := { selected : bool; number : Z; limit : Z; offset : Z }.
End Page.

Record t := { limit : Z; offset : Z; count : Z; padding : Z }.

Definition init (limit offset count padding : PyVal) : result t :=
  match
    (limit ← Py.int limit;
     offset ← Py.int offset;
     count ← Py.int count;
     padding ← Py.int padding;
     Ok {| limit := limit; offset := offset; count := count; padding := padding |})
  with
  | Raise ValueError => Ok {| limit := 10; offset := 0; count := 0; padding := 10 |}
  | r => r
  end.

Definition from_page_number (self : t) (number : Z) : Page.t :=
  {| Page.limit := limit self; Page.offset := (number - 1) * limit self;
     Page.selected := false; Page.number := number |}.

(** the [while] loop of [range]: the numbers yielded and the final [i] *)
Fixpoint range_loop (fuel : nat) (i end_ max_ min_ : Z) : list Z * Z :=
  match fuel with
  | O => ([], i)
  | S fuel' =>
      if (i <=? end_)%Z && (i <=? max_)%Z then
        let '(ys, i') := range_loop fuel' (i + 1)%Z end_ max_ min_ in
        ((if (i >? min_)%Z then [i] else []) ++ ys, i')
      else ([], i)
  end.

Definition range_turns (start end_ max_ : Z) : nat :=
  Z.to_nat (Z.min end_ max_ + 1 - start).

(** the numbers that the generator [range] yields, in order *)
Definition range (start end_ max_ min_ : Z) : list Z :=
  let i := start in
  let '(ys, i) := range_loop (range_turns start end_ max_) i end_ max_ min_ in
  [min_] ++ ys ++ (if (i <? max_)%Z then [max_] else []).

(** [int(math.ceil(count / float(limit)))], on exact quotients *)
Definition page_count (self : t) : Z := (- ((- count self) / limit self))%Z.

Definition current_page_count (self : t) : Z := (offset self / limit self + 1)%Z.

Definition pages (self : t) : result (list Page.t) :=
  if (limit self =? 0)%Z then Raise ZeroDivisionError else
  let page_count := page_count self in
  let current_page_count := current_page_count self in
  if (padding self =? 0)%Z then Raise ZeroDivisionError else
  let s := ((current_page_count - 1) / padding self)%Z in
  let start := (s * 10 + 1)%Z in
  Ok (map (fun page =>
             {| Page.selected := (page =? current_page_count)%Z;
                Page.number := page; Page.limit := limit self;
                Page.offset := (limit self * (page - 1))%Z |})
          (range start (start + padding self - 1)%Z page_count 1%Z)).

End Pager.

(** *** The table and the objects it shares *)

(** what [select] reads from a record to print it:
    [row._sa_instance_state.class_.__table__] and its columns *)
Record ColumnMeta := {
  key : string;
  nullable : bool;
  primary_key : bool;
  column_default : PyVal
}.

(** a record of a mapped class, as the session returns it *)
Record Instance := {
  sa_table : list ColumnMeta;
  record : obj PyVal
}.

Record Session := {
  fetch : Query -> list Instance;     (* iterate over the query *)
  count_rows : Query -> Z             (* [query.count()] *)
}.

Definition loc := nat.

(** the fields of a [Table] *)
Record TableObj := {
  cls : source;
  label : string;
  unit_label : string;
  _filters : list Filter;
  rows : list (list Cell.t);
  _columns : list loc;
  _count : option Z;
  session : Session;
  pager : Pager.t
}.

(** what [select] writes to the standard output *)
Inductive printed :=
| Pprint_table (t2 : list ColumnMeta)     (* [pprint(vars(t2))] *)
| Print_nothing                           (* [print()] *)
| Print (v : PyVal)                       (* [print(v)] *)
| Pprint_column (col : Column.t)          (* [pprint(vars(col))] *)
| Pprint_name (name : string).            (* [pprint] of the value of a name *)

(** Column objects live in a store and are named by reference: the list
    [Table._columns], the list that the property [Table.columns] builds and
    the caller's own list all share them. *)
Record World := {
  column_at : loc -> Column.t;
  table : TableObj;
  stdout : list printed
}.

(** a method that may raise and may mutate; what was mutated before an
    exception stays mutated *)
Definition M (A : Type) : Type := World -> result A * World.

Definition ret {A} (a : A) : M A := fun w => (Ok a, w).
Definition raise {A} (e : exn) : M A := fun w => (Raise e, w).
Definition lift {A} (r : result A) : M A := fun w => (r, w).
Definition bindM {A B} (m : M A) (k : A -> M B) : M B :=
  fun w => match m w with
           | (Ok a, w') => k a w'
           | (Raise e, w') => (Raise e, w')
           end.
Definition read : M World := fun w => (Ok w, w).
Definition emit (p : printed) : M unit :=
  fun w => (Ok tt, {| column_at := column_at w; table := table w;
                      stdout := stdout w ++ [p] |}).

Notation "x <~ m ;; k" := (bindM m (fun x => k))
  (at level 100, m at next level, right associativity).
Notation "m ;;; k" := (bindM m (fun _ => k))
  (at level 100, right associativity).

(** *** Names in scope inside [Table.select] *)

Definition builtins : list string := split " "
  "ArithmeticError AssertionError AttributeError BaseException BaseExceptionGroup BlockingIOError BrokenPipeError BufferError BytesWarning ChildProcessError ConnectionAbortedError ConnectionError ConnectionRefusedError ConnectionResetError DeprecationWarning EOFError Ellipsis EncodingWarning EnvironmentError Exception ExceptionGroup False FileExistsError FileNotFoundError FloatingPointError FutureWarning GeneratorExit IOError ImportError ImportWarning IndentationError IndexError InterruptedError IsADirectoryError KeyError KeyboardInterrupt LookupError MemoryError ModuleNotFoundError NameError None NotADirectoryError NotImplemented NotImplementedError OSError OverflowError PendingDeprecationWarning PermissionError ProcessLookupError RecursionError ReferenceError ResourceWarning RuntimeError RuntimeWarning StopAsyncIteration StopIteration SyntaxError SyntaxWarning SystemError SystemExit TabError TimeoutError True TypeError UnboundLocalError UnicodeDecodeError UnicodeEncodeError UnicodeError UnicodeTranslateError UnicodeWarning UserWarning ValueError Warning ZeroDivisionError __build_class__ __debug__ __doc__ __import__ __loader__ __name__ __package__ __spec__ abs aiter all anext any ascii bin bool breakpoint bytearray bytes callable chr classmethod compile complex copyright credits delattr dict dir divmod enumerate eval exec exit filter float format frozenset getattr globals hasattr hash help hex id input int isinstance issubclass iter len license list locals map max memoryview min next object oct open ord pow print property quit range repr reversed round set setattr slice sorted staticmethod str sum super tuple type vars zip".

(** the names bound at the top level of [dodotable/schema.py] *)
Definition schema_globals : list string :=
  [ "__name__"; "__doc__"; "__package__"; "__loader__"; "__spec__"; "__file__";
    "__cached__"; "__builtins__";
    "absolute_import"; "collections"; "MutableSequence"; "math"; "Query";
    "FlaskEnvironment"; "render"; "string_literal"; "_get_data"; "pprint";
    "__all__"; "ENVIRONMENT"; "Schema"; "Renderable"; "Queryable"; "Cell";
    "LinkedCell"; "Column"; "LinkedColumn"; "ObjectColumn"; "HiddenColumn";
    "Row"; "Pager"; "Table" ].

(** the names [select] binds: its parameters and the targets of its
    assignments and loops *)
Definition select_locals : list string :=
  [ "self"; "offset"; "limit"; "q"; "i"; "row"; "t2"; "c2"; "_row"; "j"; "col" ].

(** reading a name: local, then global, then built-in, else [NameError] *)
Definition load_name (locals globals : list string) (name : string) : result unit :=
  if SelectFilter.mem name locals || SelectFilter.mem name globals
     || SelectFilter.mem name builtins
  then Ok tt else Raise (NameError name).

(** *** [dodotable.condition.IlikeSet] *)

Module IlikeSet.

Definition t := IlikeSetObj.

Definition init (table_cls : source) (request_args : gmap string string)
    (identifier : option string) : result t :=
  identifier ← (if negb (truthy_opt identifier)
                then Util.camel_to_underscore <$> source__name table_cls
                else Ok (format_opt identifier));
  let name := create_search_name identifier in
  Ok {| arg_name := word name; arg_type_name := type name;
        request_args := request_args |}.

(** [for f in column.filters]; the source evaluates [f.__query__()] a
    second time to append it, which reads the same request arguments and
    gives the same value: it is bound once here *)
Fixpoint query_filters (fs : list Filter) (filter_ : list pred) : result (list pred) :=
  match fs with
  | [] => Ok filter_
  | FIlike f :: fs' =>
      q ← ilike_instance_query f;
      match q with
      | Some p => query_filters fs' (filter_ ++ [p])
      | None => query_filters fs' filter_
      end
  | _ :: fs' => query_filters fs' filter_
  end.

(** [for column in self.table._columns] *)
Fixpoint query_columns (w : World) (columns : list loc) (filter_ : list pred)
    : result (list pred) :=
  match columns with
  | [] => Ok filter_
  | column :: columns' =>
      filter_ ← query_filters (Column.filters (column_at w column)) filter_;
      query_columns w columns' filter_
  end.

Definition query (w : World) (self : t) : result (option pred) :=
  let filter_ := [] in
  filter_ ← query_columns w (_columns (table w)) filter_;
  Ok (match filter_ with
      | [] => None
      | _ :: _ => Some (or_ filter_)
      end).

End IlikeSet.

(** [filter.__query__()] by the class of [filter] *)
Definition filter_query (w : World) (f : Filter) : result (option pred) :=
  match f with
  | FIlike f => ilike_instance_query f
  | FSelect f => select_instance_query f
  | FIlikeSet f => IlikeSet.query w f
  | FLimit f => Limit.query f
  end.

(** *** [dodotable.schema.Table] *)

Module Table.

Definition t := TableObj.

Definition set_rows (rows : list (list Cell.t)) (self : t) : t :=
  {| cls := cls self; label := label self; unit_label := unit_label self;
     _filters := _filters self; rows := rows; _columns := _columns self;
     _count := _count self; session := session self; pager := pager self |}.

Definition set_pager (pager : Pager.t) (self : t) : t :=
  {| cls := cls self; label := label self; unit_label := unit_label self;
     _filters := _filters self; rows := rows self; _columns := _columns self;
     _count := _count self; session := session self; pager := pager |}.

Definition set_filters (filters : list Filter) (self : t) : t :=
  {| cls := cls self; label := label self; unit_label := unit_label self;
     _filters := filters; rows := rows self; _columns := _columns self;
     _count := _count self; session := session self; pager := pager self |}.

(** [environment_session] is the outcome of [self.environment.get_session()] *)
Definition init (cls : source) (label unit_label : string)
    (columns : option (list loc)) (sqlalchemy_session : option Session)
    (environment_session : result (option Session)) : result t :=
  let session :=
    match sqlalchemy_session with
    | Some s => Some s
    | None => match environment_session with Ok s => s | Raise _ => None end
    end in
  match session with
  | None => Raise ValueError
  | Some session =>
      pager ← Pager.init (PyInt 1) (PyInt 0) (PyInt 0) (PyInt 10);
      Ok {| cls := cls; label := label; unit_label := unit_label;
            _filters := []; rows := [];
            _columns := match columns with None => [] | Some l => l end;
            _count := None; session := session; pager := pager |}
  end.

Definition update_table (f : t -> t) : M unit :=
  fun w => (Ok tt, {| column_at := column_at w; table := f (table w);
                      stdout := stdout w |}).

(** assignment to an attribute of the column object at [l] *)
Definition update_column (l : loc) (f : Column.t -> Column.t) : M unit :=
  fun w => (Ok tt,
            {| column_at := fun l' => if Nat.eqb l' l then f (column_at w l)
                                      else column_at w l';
               table := table w; stdout := stdout w |}).

Definition add_filter (filter : Filter) : M unit :=
  update_table (fun self => set_filters (_filters self ++ [filter]) self).

(** the property [columns]: a new list of the visible column objects *)
Definition columns (w : World) : list loc :=
  List.filter (fun column => Column.visible (column_at w column)) (_columns (table w)).

(** [_filter_queries] consumed by the loop of [build_base_query]; a filter
    object is true, having neither [__bool__] nor [__len__] *)
Fixpoint build_base_query_loop (w : World) (filters : list Filter) (query : Query)
    : result Query :=
  match filters with
  | [] => Ok query
  | filter :: filters' =>
      q ← filter_query w filter;
      build_base_query_loop w filters'
        (match q with
         | Some p => Sql.filter query p
         | None => query
         end)
  end.

Definition build_base_query (w : World) : result Query :=
  let query :=
    match cls (table w) with
    | FromQuery q => q
    | Mapped c => {| q_entity := Some c; q_filter := []; q_order_by := [];
                     q_offset := None; q_limit := None |}
    end in
  build_base_query_loop w (_filters (table w)) query.

(** the property [count] *)
Definition count (w : World) : result Z :=
  count_rows (session (table w)) <$> build_base_query w.

(** [for column in self.columns] of [_order_queries] *)
Fixpoint order_loop (w : World) (columns : list loc) (order : list order_term)
    : list order_term :=
  match columns with
  | [] => order
  | column :: columns' =>
      match Column.order_by (column_at w column) with
      | Some d =>
          let o := Order.init (cls (table w)) (Column.attr (column_at w column)) (Some d) in
          order_loop w columns' (order ++ [Order.query o])
      | None => order_loop w columns' order
      end
  end.

Definition _order_queries : M (list order_term) :=
  w <~ read ;;
  let order := order_loop w (columns w) [] in
  match order with
  | _ :: _ => ret order
  | [] =>
      match columns w with
      | [] => raise IndexError
      | column0 :: _ =>
          let k := Column.attr (column_at w column0) in
          let o := Order.init (cls (table w)) k None in
          update_column column0 (Column.set_order_by (Some (Order.order o))) ;;;
          ret (order ++ [Order.query o])
      end
  end.

(** the property [query] *)
Definition query : M Query :=
  w <~ read ;;
  base <~ lift (build_base_query w) ;;
  order <~ _order_queries ;;
  ret (Sql.order_by base order).

(** [for c2 in t2.columns] of [select] *)
Fixpoint print_columns (columns : list ColumnMeta) : M unit :=
  match columns with
  | [] => ret tt
  | c2 :: columns' =>
      emit (Print (PyStr (key c2))) ;;;
      emit (Print (PyBool (nullable c2))) ;;;
      emit (Print (PyBool (primary_key c2))) ;;;
      emit (Print (column_default c2)) ;;;
      print_columns columns'
  end.

(** [for j, col in enumerate(self.columns)] of [select]; [pprint(default)]
    first reads the name [default] *)
Fixpoint select_cells (i : nat) (row : Instance) (j : nat)
    (columns : list loc) (_row : list Cell.t) : M (list Cell.t) :=
  match columns with
  | [] => ret _row
  | l :: columns' =>
      w <~ read ;;
      let col := column_at w l in
      emit (Pprint_column col) ;;;
      let _row := _row ++ [Column.cell col j i (record row) (Column.attr col)] in
      lift (load_name select_locals schema_globals "default") ;;;
      emit (Pprint_name "default") ;;;
      select_cells i row (S j) columns' _row
  end.

(** [for i, row in enumerate(q)] of [select] *)
Fixpoint select_rows (i : nat) (q : list Instance) : M unit :=
  match q with
  | [] => ret tt
  | row :: q' =>
      let t2 := sa_table row in
      emit (Pprint_table t2) ;;;
      emit Print_nothing ;;;
      print_columns t2 ;;;
      w <~ read ;;
      _row <~ select_cells i row 0 (columns w) [] ;;
      update_table (fun self => set_rows (rows self ++ [_row]) self) ;;;
      select_rows (S i) q'
  end.

(** the query that [select] iterates over *)
Definition sliced (q : Query) (offset limit : PyVal) : Query :=
  Sql.limit (Sql.offset q offset) limit.

(** [select] returns [self]: the table of the final world *)
Definition select (offset limit : PyVal) : M unit :=
  update_table (set_rows []) ;;;
  q <~ query ;;
  let q := sliced q offset limit in
  w <~ read ;;
  select_rows 0 (fetch (session (table w)) q) ;;;
  w <~ read ;;
  count <~ lift (count w) ;;
  pager <~ lift (Pager.init limit offset (PyInt count) (PyInt 10)) ;;
  update_table (set_pager pager).

End Table.


(** *** [dodotable.schema.Row] *)

Module Row.

(** the list [self._row]; keys are integers (slices are left out) *)
Abbreviation t := (list Cell.t).

Definition init : t := [].

Definition len (self : t) : Z := Z.of_nat (length self).

(** the position that a list gives to the integer key [key]: a negative key
    counts from the end, and a key outside the list is an [IndexError] *)
Definition position (self : t) (key : Z) : result nat :=
  let k := (if key <? 0 then key + len self else key)%Z in
  if ((0 <=? k) && (k <? len self))%Z then Ok (Z.to_nat k) else Raise IndexError.

Definition getitem (self : t) (item : Z) : result Cell.t :=
  i ← position self item;
  match self !! i with
  | Some c => Ok c
  | None => Raise IndexError
  end.

Definition setitem (self : t) (key : Z) (value : Cell.t) : result t :=
  i ← position self key;
  Ok (<[i := value]> self).

Definition delitem (self : t) (key : Z) : result t :=
  i ← position self key;
  Ok (delete i self).

(** [list.insert] never raises: an index beyond either end is brought back
    to that end *)
Definition insert (self : t) (index : Z) (object_ : Cell.t) : t :=
  let k := (if index <? 0 then Z.max 0 (index + len self)
            else Z.min index (len self))%Z in
  take (Z.to_nat k) self ++ object_ :: drop (Z.to_nat k) self.

(** [append] checks that the value is a [Cell], which the type says, and
    goes through [MutableSequence.append]: [self.insert(len(self), value)] *)
Definition append (self : t) (cell : Cell.t) : t :=
  insert self (len self) cell.

End Row.

(** [Column.add_filter], on the column object at [l] *)
Definition Column_add_filter (l : loc) (filter : Filter) : M unit :=
  Table.update_column l
    (fun self =>
       {| Column.label := Column.label self; Column.attr := Column.attr self;
          Column.filters := Column.filters self ++ [filter];
          Column.order_by := Column.order_by self;
          Column._repr := Column._repr self;
          Column.sortable := Column.sortable self;
          Column.visible := Column.visible self;
          Column.editable := Column.editable self;
          Column.classes := Column.classes self;
          Column.variety_of := Column.variety_of self |}).
(** * Statements: the vocabulary of the properties, and sample objects *)

(** a token of [order_by] that names the attribute, in either direction *)
Definition names_attr (attr o : string) : Prop :=
  strip o = Order.asc_order_name attr \/ strip o = Order.desc_order_name attr.

(** the [n] consecutive candidates from [start] on *)
Definition candidates (start : Z) (n : nat) : list Z :=
  map (fun k => (start + Z.of_nat k)%Z) (seq 0 n).

(** the fields that [Pager.__init__] falls back to *)
Definition pager_defaults : Pager.t :=
  {| Pager.limit := 10; Pager.offset := 0; Pager.count := 0; Pager.padding := 10 |}.

(** the exception of the first coercion that fails, in evaluation order *)
Fixpoint first_error (rs : list (result Z)) : option exn :=
  match rs with
  | [] => None
  | Ok _ :: rs' => first_error rs'
  | Raise e :: _ => Some e
  end.

(** no field is negative *)
Definition pager_nonneg (p : Pager.t) : Prop :=
  (0 <= Pager.limit p /\ 0 <= Pager.offset p
   /\ 0 <= Pager.count p /\ 0 <= Pager.padding p)%Z.

(** the names of the declared choices *)
Definition names (C : list SelectFilter.choice) : list string :=
  SelectFilter.name <$> C.

(** the selector that [SelectFilter.__query__] reads: the request argument
    [select.<attribute>], or the default of the filter when it is absent *)
Definition selector (attribute_name : string) (request_args : gmap string string)
    (default : option string) : option string :=
  Py.get request_args ("select." +:+ attribute_name) default.

(** the callable [int] as the [type_] of an [Equal] filter *)
Definition int_type (v : PyVal) : result PyVal := PyInt <$> Py.int v.

(** the filters of all the columns of the table, in the order in which
    [IlikeSet.__query__] meets them *)
Definition all_filters (w : World) : list Filter :=
  flat_map (fun column => Column.filters (column_at w column)) (_columns (table w)).

(** the predicate that an instance of [Ilike] contributes *)
Definition active_pred (f : Filter) : list pred :=
  match f with
  | FIlike f' =>
      match ilike_instance_query f' with
      | Ok (Some p) => [p]
      | _ => []
      end
  | _ => []
  end.

(** the filters that match substrings: [Ilike] and [IlikeAlias] themselves,
    not the subclasses [Equal] and [EqualAlias] that compare typed values *)
Definition is_substring_filter (f : Filter) : bool :=
  match f with
  | FIlike (AnIlike _) | FIlike (AnIlikeAlias _) => true
  | _ => false
  end.

Definition or_opt (ps : list pred) : option pred :=
  match ps with
  | [] => None
  | _ :: _ => Some (or_ ps)
  end.

(** the table with its rows emptied, as [select] starts *)
Definition rows_reset (w : World) : World :=
  {| column_at := column_at w; table := Table.set_rows [] (table w);
     stdout := stdout w |}.

(** *** Sample objects *)

Module Sample.

Definition Music : Class :=
  {| cls__name := "Music";
     cls_attrs := [ ("id", Obj (EAttr "Music" "id") []);
                    ("name", Obj (EAttr "Music" "name") []);
                    ("genre", Obj (EAttr "Music" "genre") []) ] |}.

Definition genres : list SelectFilter.choice :=
  [ {| SelectFilter.name := "pop"; SelectFilter.description := "Pop" |};
    {| SelectFilter.name := "rock"; SelectFilter.description := "Rock" |} ].

Definition nullable_genres : list SelectFilter.choice :=
  genres ++ [ {| SelectFilter.name := "null"; SelectFilter.description := "Unset" |};
              {| SelectFilter.name := "not-null"; SelectFilter.description := "Set" |} ].

(** the object that [SelectFilter(Music, 'genre', choices, request_args,
    default)] builds *)
Definition genre_filter (choices : list SelectFilter.choice)
    (request_args : gmap string string) (default : option string) : SelectFilter.t :=
  {| SelectFilter.cls := Music; SelectFilter.attribute := EAttr "Music" "genre";
     SelectFilter.attribute_name := "genre";
     SelectFilter.request_args := request_args;
     SelectFilter.choices :=
       {| SelectFilter.name := "all"; SelectFilter.description := "모두" |} :: choices;
     SelectFilter.default := default |}.

(** [Equal(Music, 'id', int, request_args)] *)
Definition id_equal (request_args : gmap string string) : Equal.t :=
  {| Equal.base := {| Ilike.cls := Music; Ilike.attribute := EAttr "Music" "id";
                      Ilike.attribute_name := "id";
                      Ilike.request_args := request_args |};
     Equal.type_ := int_type |}.

(** [EqualAlias('music', id_alias, int, request_args)] *)
Definition id_equal_alias (request_args : gmap string string) : EqualAlias.t :=
  EqualAlias.init "music" {| IlikeAlias.alias_name := "id" |} int_type request_args.

(** [Ilike(Music, 'name', request_args)] *)
Definition name_ilike (request_args : gmap string string) : Ilike.t :=
  {| Ilike.cls := Music; Ilike.attribute := EAttr "Music" "name";
     Ilike.attribute_name := "name"; Ilike.request_args := request_args |}.

Definition music_meta : list ColumnMeta :=
  [ {| key := "id"; nullable := false; primary_key := true; column_default := PyNone |};
    {| key := "name"; nullable := false; primary_key := false; column_default := PyNone |};
    {| key := "genre"; nullable := true; primary_key := false; column_default := PyNone |} ].

Definition music (id : Z) (name : string) : Instance :=
  {| sa_table := music_meta;
     record := Obj PyNone [ ("id", Obj (PyInt id) []);
                            ("name", Obj (PyStr name) []);
                            ("genre", Obj PyNone []) ] |}.

(** a session over two records, whatever the query *)
Definition two_records : Session :=
  {| fetch := fun _ => [music 1 "Blue"; music 2 "Green"];
     count_rows := fun _ => 2%Z |}.

Definition no_record : Session :=
  {| fetch := fun _ => []; count_rows := fun _ => 0%Z |}.

(** a formatter: the text of a string, nothing for another value *)
Definition plain (v : obj PyVal) : string :=
  match self_of v with
  | PyStr s => s
  | _ => ""
  end.

(** three columns: a hidden [id] that carries the filters [id_filters], then
    [name] and [genre] *)
Definition columns (id_filters : list Filter) (l : loc) : Column.t :=
  match l with
  | 0 => Column.init Column.Hidden "ID" "id" (PyTuple []) (Some id_filters)
           plain true true false []
  | 1 => Column.init Column.Plain "Name" "name" (PyTuple []) None
           plain true true false []
  | _ => Column.init Column.Plain "Genre" "genre" (PyTuple []) None
           plain true true false []
  end.

Definition music_table (filters : list Filter) (session : Session) : TableObj :=
  {| cls := Mapped Music; label := "Music"; unit_label := "row";
     _filters := filters; rows := []; _columns := [0; 1; 2]; _count := None;
     session := session;
     pager := {| Pager.limit := 1; Pager.offset := 0; Pager.count := 0;
                 Pager.padding := 10 |} |}.

Definition world (id_filters filters : list Filter) (session : Session) : World :=
  {| column_at := columns id_filters; table := music_table filters session;
     stdout := [] |}.

Definition search_set : IlikeSetObj :=
  {| arg_name := "search_music.word"; arg_type_name := "search_music.type";
     request_args := ∅ |}.

End Sample.

(** two worlds in which the filters see the same thing: the same columns
    by reference, each with the same filters *)
Definition same_columns (w w' : World) : Prop :=
  _columns (table w') = _columns (table w)
  /\ forall l, Column.filters (column_at w' l) = Column.filters (column_at w l).

(** a step that only prints: it returns, and leaves the columns and the
    table as they are *)
Definition only_prints (m : M unit) : Prop :=
  forall w, exists w', m w = (Ok tt, w')
                       /\ column_at w' = column_at w /\ table w' = table w.

(** *** Further vocabulary *)




Definition numbers (ps : list Pager.Page.t) : list Z := map Pager.Page.number ps.

(** a pager as the table builds it from a request that makes sense *)
Definition pager_sound (p : Pager.t) : Prop :=
  (0 < Pager.limit p /\ 0 <= Pager.offset p /\ 0 < Pager.padding p)%Z.

(** the predicate that a filter contributes to the base query *)
Definition contributed (w : World) (f : Filter) : list pred :=
  match filter_query w f with
  | Ok (Some p) => [p]
  | _ => []
  end.

(** every filter of the list evaluates without an exception *)
Definition all_evaluate (w : World) (fs : list Filter) : Prop :=
  Forall (fun f => exists q, filter_query w f = Ok q) fs.

(** the query over the source of the table, before any filter *)
Definition source_query (w : World) : Query :=
  match cls (table w) with
  | FromQuery q => q
  | Mapped c => {| q_entity := Some c; q_filter := []; q_order_by := [];
                   q_offset := None; q_limit := None |}
  end.

(** the ordering term of a column that has a direction *)
Definition order_term_of (w : World) (column : loc) : list order_term :=
  match Column.order_by (column_at w column) with
  | Some d => [Order.query (Order.init (cls (table w))
                              (Column.attr (column_at w column)) (Some d))]
  | None => []
  end.

Fixpoint last_char (s : string) : option ascii :=
  match s with
  | EmptyString => None
  | String c EmptyString => Some c
  | String _ s' => last_char s'
  end.

(** the first candidate of the window of [Pager.pages] *)
Definition window_start (self : Pager.t) : Z :=
  ((Pager.current_page_count self - 1) / Pager.padding self * 10 + 1)%Z.

(** the pager that a request for the page [p] builds *)
Definition pager_at (self : Pager.t) (p : Pager.Page.t) : Pager.t :=
  {| Pager.limit := Pager.Page.limit p; Pager.offset := Pager.Page.offset p;
     Pager.count := Pager.count self; Pager.padding := Pager.padding self |}.
(** * Properties *)

(** the example of the docstring of [camel_to_underscore], and a class name
    as the filters use it *)
Example camel_to_underscore_doc :
  Util.camel_to_underscore "SomePythonClass" = "some_python_class"
  /\ Util.camel_to_underscore "AdminRole" = "admin_role"
  /\ create_search_name (Util.camel_to_underscore "Music")
     = {| word := "search_music.word"; type := "search_music.type" |}.
Proof. repeat split. Qed.

(** ** The order resolver *)

Section OfColumn.

Variable attr : string.

Lemma append_inj_r (p x y : string) : p +:+ x = p +:+ y -> x = y.
Proof.
  induction p as [|c p IH]; simpl; intros H; [exact H|].
  injection H as H. auto.
Qed.

Lemma asc_desc_differ : Order.asc_order_name attr <> Order.desc_order_name attr.
Proof.
  unfold Order.asc_order_name, Order.desc_order_name.
  intros H. apply append_inj_r in H. discriminate H.
Qed.

Lemma step_asc order o :
  strip o = Order.asc_order_name attr ->
  Order.of_column_step (Order.asc_order_name attr) (Order.desc_order_name attr) order o
  = Some Order.ASCENDANT.
Proof.
  intros H. unfold Order.of_column_step. rewrite H, String.eqb_refl. reflexivity.
Qed.

Lemma step_desc order o :
  strip o = Order.desc_order_name attr ->
  Order.of_column_step (Order.asc_order_name attr) (Order.desc_order_name attr) order o
  = Some Order.DESCENDANT.
Proof.
  intros H. unfold Order.of_column_step. rewrite H, String.eqb_refl.
  destruct (String.eqb_spec (Order.desc_order_name attr) (Order.asc_order_name attr))
    as [E|_]; [|reflexivity].
  exfalso. apply asc_desc_differ. symmetry. exact E.
Qed.

Lemma step_other order o :
  ~ names_attr attr o ->
  Order.of_column_step (Order.asc_order_name attr) (Order.desc_order_name attr) order o
  = order.
Proof.
  intros H. unfold Order.of_column_step.
  destruct (String.eqb_spec (strip o) (Order.asc_order_name attr)) as [E|_].
  - exfalso. apply H. left. exact E.
  - destruct (String.eqb_spec (strip o) (Order.desc_order_name attr)) as [E|_];
      [|reflexivity].
    exfalso. apply H. right. exact E.
Qed.

Lemma fold_others (l : list string) order :
  Forall (fun o => ~ names_attr attr o) l ->
  fold_left (Order.of_column_step (Order.asc_order_name attr)
               (Order.desc_order_name attr)) l order = order.
Proof.
  intros H. revert order. induction H as [|o l Ho _ IH]; intros order; simpl.
  - reflexivity.
  - rewrite step_other by exact Ho. apply IH.
Qed.

Lemma of_column_string (s : string) :
  s <> "" ->
  Order.of_column attr (PyStr s)
  = fold_left (Order.of_column_step (Order.asc_order_name attr)
                 (Order.desc_order_name attr)) (split "," s) None.
Proof.
  intros Hs. unfold Order.of_column. simpl.
  destruct (String.eqb_spec s "") as [E|_]; [contradiction|]. reflexivity.
Qed.

End OfColumn.

(** C10. [Order.of_column] gives no direction when [order_by] is false
    ([None], the empty string, the empty tuple) or is not a string; on a
    string it reads the comma-separated tokens, and the last token that
    names the attribute decides, ascending for [attr.asc] and descending
    for [attr.desc]; no direction when no token names the attribute.  So
    [of_column "name" "name.asc,other.desc"] is ascending and
    [of_column "name" ""] is none. *)
Theorem of_column_resolves (attr : string) (order_by : PyVal) :
  (truthy order_by = false \/ is_string order_by = false ->
   Order.of_column attr order_by = None)
  /\ (forall s pre t post,
        order_by = PyStr s -> s <> "" ->
        split "," s = pre ++ t :: post ->
        Forall (fun o => ~ names_attr attr o) post ->
        (strip t = Order.asc_order_name attr ->
         Order.of_column attr order_by = Some Order.ASCENDANT)
        /\ (strip t = Order.desc_order_name attr ->
            Order.of_column attr order_by = Some Order.DESCENDANT))
  /\ (forall s,
        order_by = PyStr s ->
        Forall (fun o => ~ names_attr attr o) (split "," s) ->
        Order.of_column attr order_by = None)
  /\ Order.of_column "name" (PyStr "name.asc,other.desc") = Some Order.ASCENDANT
  /\ Order.of_column "name" (PyStr "") = None
  /\ Order.of_column "name" PyNone = None.
Proof.
  split; [|split; [|split; [|repeat split]]].
  - intros [H|H]; unfold Order.of_column; rewrite H; simpl; [reflexivity|].
    rewrite orb_true_r. reflexivity.
  - intros s pre t post -> Hs Hsplit Hpost.
    rewrite of_column_string by exact Hs.
    rewrite Hsplit, fold_left_app. simpl. split; intros Ht.
    + rewrite step_asc by exact Ht. apply fold_others, Hpost.
    + rewrite step_desc by exact Ht. apply fold_others, Hpost.
  - intros s -> Hall. destruct (String.eqb_spec s "") as [->|Hs]; [reflexivity|].
    rewrite of_column_string by exact Hs. apply fold_others, Hall.
Qed.

Lemma of_column_resolves_witness :
  Order.of_column "name" (PyStr " other.desc, name.desc ,name.asc,x") = Some Order.ASCENDANT
  /\ Order.of_column "name" (PyTuple [PyInt 1]) = None
  /\ Order.of_column "name" (PyStr "title.asc,other.desc") = None.
Proof.
  pose proof (of_column_resolves "name" (PyStr " other.desc, name.desc ,name.asc,x"))
    as (_ & Hlast & _).
  pose proof (of_column_resolves "name" (PyTuple [PyInt 1])) as (Hfalse & _).
  pose proof (of_column_resolves "name" (PyStr "title.asc,other.desc"))
    as (_ & _ & Hnone & _).
  split; [|split].
  - refine (proj1 (Hlast _ [" other.desc"; " name.desc "] "name.asc" ["x"]
                     eq_refl _ eq_refl _) eq_refl).
    + discriminate.
    + repeat constructor. intros [H|H]; vm_compute in H; discriminate H.
  - apply Hfalse. right. reflexivity.
  - apply (Hnone _ eq_refl).
    repeat constructor; intros [H|H]; vm_compute in H; discriminate H.
Defined.

(** ** The pager *)

Section Range.

Variables end_ max_ min_ : Z.

(** The loop of [range] stops: with [range_turns] turns it visits every
    candidate up to [min end_ max_], and its condition is false at the
    final [i]. *)
Lemma range_loop_spec (fuel : nat) (i : Z) :
  Z.of_nat fuel = Z.max 0 (Z.min end_ max_ + 1 - i) ->
  Pager.range_loop fuel i end_ max_ min_
  = (List.filter (fun x => (x >? min_)%Z) (candidates i fuel), (i + Z.of_nat fuel)%Z).
Proof.
  revert i. induction fuel as [|fuel IH]; intros i Hfuel.
  - simpl. f_equal. lia.
  - cbn [Pager.range_loop].
    assert (Hcond : ((i <=? end_) && (i <=? max_))%Z = true).
    { apply andb_true_intro. split; apply Z.leb_le; lia. }
    rewrite Hcond, (IH (i + 1)%Z) by lia.
    unfold candidates. cbn [seq map List.filter].
    rewrite Z.add_0_r, <- seq_shift, map_map.
    f_equal; [|lia].
    assert (Hmap : map (fun k => (i + Z.of_nat (S k))%Z) (seq 0 fuel)
                   = map (fun k => (i + 1 + Z.of_nat k)%Z) (seq 0 fuel)).
    { apply map_ext. intros k. lia. }
    rewrite Hmap. destruct (i >? min_)%Z; reflexivity.
Qed.

Lemma range_loop_stops (start : Z) :
  let i := snd (Pager.range_loop (Pager.range_turns start end_ max_) start end_ max_ min_) in
  ((i <=? end_) && (i <=? max_))%Z = false.
Proof.
  cbn zeta. rewrite range_loop_spec by (unfold Pager.range_turns; lia).
  cbn [snd]. unfold Pager.range_turns.
  apply andb_false_iff.
  destruct (Z.le_gt_cases end_ max_); [left|right]; apply Z.leb_gt; lia.
Qed.

(** what [range] yields: [min_], the candidates above [min_] up to
    [min end_ max_], and [max_] when the next candidate is below it *)
Lemma range_spec (start : Z) :
  let n := Pager.range_turns start end_ max_ in
  Pager.range start end_ max_ min_
  = [min_] ++ List.filter (fun x => (x >? min_)%Z) (candidates start n)
      ++ (if (start + Z.of_nat n <? max_)%Z then [max_] else []).
Proof.
  cbn zeta. unfold Pager.range.
  rewrite range_loop_spec by (unfold Pager.range_turns; lia). reflexivity.
Qed.

Lemma candidates_bound (start : Z) (n : nat) (x : Z) :
  In x (candidates start n) -> (start <= x < start + Z.of_nat n)%Z.
Proof.
  unfold candidates. rewrite in_map_iff. intros (k & <- & Hk).
  apply in_seq in Hk. lia.
Qed.

(** the window ends one page before the last: the last page is not yielded *)
Lemma range_misses_max (start : Z) :
  (start <= end_)%Z -> (max_ = end_ + 1)%Z -> (min_ < max_)%Z ->
  ~ In max_ (Pager.range start end_ max_ min_).
Proof.
  intros Hstart Hmax Hmin. rewrite range_spec. cbn zeta.
  unfold Pager.range_turns.
  rewrite !in_app_iff. intros [H|[H|H]].
  - destruct H as [H|[]]. lia.
  - apply filter_In in H as [H _]. apply candidates_bound in H. lia.
  - destruct (Z.ltb_spec (start + Z.of_nat (Z.to_nat (Z.min end_ max_ + 1 - start))) max_)
      as [Hlt|_]; [lia|destruct H].
Qed.

(** the window ends two pages or more before the last: the last page closes
    the enumeration *)
Lemma range_reaches_max (start : Z) :
  (start <= end_ + 1)%Z -> (end_ + 1 < max_)%Z ->
  exists ys, Pager.range start end_ max_ min_ = ys ++ [max_].
Proof.
  intros Hstart Hmax. rewrite range_spec. cbn zeta. unfold Pager.range_turns.
  destruct (Z.ltb_spec (start + Z.of_nat (Z.to_nat (Z.min end_ max_ + 1 - start))) max_)
    as [_|Hge]; [|lia].
  eexists. rewrite app_assoc. reflexivity.
Qed.

End Range.

Lemma range_reaches_max_witness : exists ys, Pager.range 1 10 12 1 = ys ++ [12%Z].
Proof. apply range_reaches_max; lia. Defined.

Lemma range_misses_max_witness : ~ In 11%Z (Pager.range 1 10 11 1).
Proof. apply range_misses_max; lia. Defined.

(** C2. [Pager.pages] at [limit=10, offset=0, count=110, padding=10]: there
    are 11 pages, the candidates run from 1 to 10, page 1 comes first, and
    the last page, which the candidates did not reach, is not included:
    [range] ends on [if i < max_] with [i] already one past the last
    candidate. *)
Theorem pages_omits_last_page :
  let pager := {| Pager.limit := 10; Pager.offset := 0;
                  Pager.count := 110; Pager.padding := 10 |} in
  Pager.page_count pager = 11%Z
  /\ exists ps, Pager.pages pager = Ok ps
       /\ map Pager.Page.number ps = [1; 2; 3; 4; 5; 6; 7; 8; 9; 10]%Z
       /\ ~ In (Pager.page_count pager) (map Pager.Page.number ps).
Proof.
  cbn zeta. split; [reflexivity|].
  eexists. split; [reflexivity|]. split; [reflexivity|].
  vm_compute. intuition discriminate.
Qed.

(** the windows of 95 rows and of 5 rows seen from the fourth page, ten
    rows a page; twelve pages are listed as 1 to 10 and 12 *)
Example pages_of_95 :
  (fun ps => (map Pager.Page.number ps, map Pager.Page.selected ps))
    <$> Pager.pages {| Pager.limit := 10; Pager.offset := 0;
                       Pager.count := 95; Pager.padding := 10 |}
  = Ok ([1; 2; 3; 4; 5; 6; 7; 8; 9; 10]%Z,
        [true; false; false; false; false; false; false; false; false; false]).
Proof. reflexivity. Qed.

Example pages_of_5_at_30 :
  map Pager.Page.number
    <$> Pager.pages {| Pager.limit := 10; Pager.offset := 30;
                       Pager.count := 5; Pager.padding := 10 |}
  = Ok [1%Z].
Proof. reflexivity. Qed.

Example pages_of_120 :
  map Pager.Page.number
    <$> Pager.pages {| Pager.limit := 10; Pager.offset := 0;
                       Pager.count := 120; Pager.padding := 10 |}
  = Ok [1; 2; 3; 4; 5; 6; 7; 8; 9; 10; 12]%Z.
Proof. reflexivity. Qed.

Lemma int_nonneg_fields (limit offset count padding : PyVal) (l o c p : Z) :
  Py.int limit = Ok l -> Py.int offset = Ok o ->
  Py.int count = Ok c -> Py.int padding = Ok p ->
  Pager.init limit offset count padding
  = Ok {| Pager.limit := l; Pager.offset := o; Pager.count := c; Pager.padding := p |}.
Proof. intros Hl Ho Hc Hp. unfold Pager.init. rewrite Hl, Ho, Hc, Hp. reflexivity. Qed.

Lemma init_value_error (limit offset count padding : PyVal) :
  first_error [Py.int limit; Py.int offset; Py.int count; Py.int padding]
  = Some ValueError ->
  Pager.init limit offset count padding = Ok pager_defaults.
Proof.
  unfold Pager.init. simpl.
  destruct (Py.int limit) as [l|e]; simpl; [|intros [= ->]; reflexivity].
  destruct (Py.int offset) as [o|e]; simpl; [|intros [= ->]; reflexivity].
  destruct (Py.int count) as [c|e]; simpl; [|intros [= ->]; reflexivity].
  destruct (Py.int padding) as [p|e]; simpl; [|intros [= ->]; reflexivity].
  discriminate.
Qed.

(** C3, as the code has it.  [Pager.__init__] stores [int] of each input,
    sign included: the fields are non-negative when no input coerces to a
    negative integer.  When the first coercion that fails raises
    [ValueError], as [limit="x"] does whatever the other inputs are,
    construction does not raise and the fields are 10, 0, 0, 10. *)
Theorem pager_init_fields (limit offset count padding : PyVal) :
  (forall l o c p,
      Py.int limit = Ok l -> Py.int offset = Ok o ->
      Py.int count = Ok c -> Py.int padding = Ok p ->
      Pager.init limit offset count padding
      = Ok {| Pager.limit := l; Pager.offset := o;
              Pager.count := c; Pager.padding := p |})
  /\ (first_error [Py.int limit; Py.int offset; Py.int count; Py.int padding]
      = Some ValueError ->
      Pager.init limit offset count padding = Ok pager_defaults)
  /\ (forall s, limit = PyStr s -> parse_int s = None ->
        Pager.init limit offset count padding = Ok pager_defaults)
  /\ (forall pg,
        Pager.init limit offset count padding = Ok pg ->
        (forall v z, In v [limit; offset; count; padding] ->
                     Py.int v = Ok z -> (0 <= z)%Z) ->
        pager_nonneg pg).
Proof.
  split; [|split; [|split]].
  - intros l o c p. apply int_nonneg_fields.
  - apply init_value_error.
  - intros s -> Hs. apply init_value_error. simpl. rewrite Hs. reflexivity.
  - intros pg Hinit Hpos. unfold Pager.init in Hinit.
    destruct (Py.int limit) as [l|e] eqn:Hl; simpl in Hinit;
      [|destruct e; inversion Hinit; subst pg; unfold pager_nonneg; simpl; lia].
    destruct (Py.int offset) as [o|e] eqn:Ho; simpl in Hinit;
      [|destruct e; inversion Hinit; subst pg; unfold pager_nonneg; simpl; lia].
    destruct (Py.int count) as [c|e] eqn:Hc; simpl in Hinit;
      [|destruct e; inversion Hinit; subst pg; unfold pager_nonneg; simpl; lia].
    destruct (Py.int padding) as [p|e] eqn:Hp; simpl in Hinit;
      [|destruct e; inversion Hinit; subst pg; unfold pager_nonneg; simpl; lia].
    inversion Hinit; subst pg. unfold pager_nonneg; simpl.
    repeat split.
    + apply (Hpos limit); [simpl; auto|exact Hl].
    + apply (Hpos offset); [simpl; auto|exact Ho].
    + apply (Hpos count); [simpl; auto|exact Hc].
    + apply (Hpos padding); [simpl; auto|exact Hp].
Qed.

Lemma pager_init_fields_witness :
  Pager.init (PyStr "20") (PyInt 40) (PyStr " 95 ") (PyInt 10)
  = Ok {| Pager.limit := 20; Pager.offset := 40; Pager.count := 95; Pager.padding := 10 |}
  /\ Pager.init (PyInt 5) (PyStr "x") PyNone (PyInt 10) = Ok pager_defaults
  /\ Pager.init (PyStr "x") PyNone PyNone PyNone = Ok pager_defaults
  /\ pager_nonneg {| Pager.limit := 20; Pager.offset := 40;
                     Pager.count := 95; Pager.padding := 10 |}.
Proof.
  pose proof (pager_init_fields (PyStr "20") (PyInt 40) (PyStr " 95 ") (PyInt 10))
    as (Hok & _ & _ & Hpos).
  pose proof (pager_init_fields (PyInt 5) (PyStr "x") PyNone (PyInt 10))
    as (_ & Hval & _).
  pose proof (pager_init_fields (PyStr "x") PyNone PyNone PyNone) as (_ & _ & Hstr & _).
  split; [|split; [|split]].
  - apply Hok; reflexivity.
  - apply Hval. reflexivity.
  - apply (Hstr "x"); reflexivity.
  - apply Hpos; [reflexivity|].
    intros v z [<-|[<-|[<-|[<-|[]]]]] [= <-]; lia.
Defined.

(** C3 as stated fails: a negative input gives a negative field. *)
Lemma pager_init_negative :
  Pager.init (PyInt (-5)) (PyStr "-20") (PyInt 0) (PyInt 10)
  = Ok {| Pager.limit := -5; Pager.offset := -20; Pager.count := 0; Pager.padding := 10 |}
  /\ ~ (forall limit offset count padding,
          exists pg, Pager.init limit offset count padding = Ok pg /\ pager_nonneg pg).
Proof.
  split; [reflexivity|].
  intros H. destruct (H (PyInt (-5)) (PyInt 0) (PyInt 0) (PyInt 10)) as (pg & Hpg & Hnn).
  vm_compute in Hpg. inversion Hpg; subst pg.
  unfold pager_nonneg in Hnn. simpl in Hnn. lia.
Qed.

(** The handler is for [ValueError] only: [None] raises [TypeError]. *)
Lemma pager_init_type_error :
  Pager.init PyNone (PyInt 0) (PyInt 0) (PyInt 10) = Raise TypeError.
Proof. reflexivity. Qed.

(** ** What the filters read *)

Section SameColumns.

Variables w w' : World.
Hypothesis Hsame : same_columns w w'.

Lemma query_columns_same (columns : list loc) (filter_ : list pred) :
  IlikeSet.query_columns w' columns filter_ = IlikeSet.query_columns w columns filter_.
Proof.
  revert filter_. induction columns as [|column columns IH]; intros filter_; simpl.
  - reflexivity.
  - rewrite (proj2 Hsame column).
    destruct (IlikeSet.query_filters _ filter_) as [filter_'|e]; simpl; [apply IH|reflexivity].
Qed.

Lemma filter_query_same (f : Filter) : filter_query w' f = filter_query w f.
Proof.
  destruct f as [f|f|f|f]; try reflexivity.
  simpl. unfold IlikeSet.query. rewrite (proj1 Hsame), query_columns_same. reflexivity.
Qed.

Lemma build_base_query_loop_same (filters : list Filter) (query : Query) :
  Table.build_base_query_loop w' filters query
  = Table.build_base_query_loop w filters query.
Proof.
  revert query. induction filters as [|f filters IH]; intros query; simpl.
  - reflexivity.
  - rewrite filter_query_same.
    destruct (filter_query w f) as [q|e]; simpl; [apply IH|reflexivity].
Qed.

Lemma build_base_query_same :
  cls (table w') = cls (table w) ->
  _filters (table w') = _filters (table w) ->
  Table.build_base_query w' = Table.build_base_query w.
Proof.
  intros Hcls Hfilters. unfold Table.build_base_query.
  rewrite Hcls, Hfilters. apply build_base_query_loop_same.
Qed.

End SameColumns.

Lemma same_columns_rows_reset (w : World) : same_columns w (rows_reset w).
Proof. split; reflexivity. Qed.

(** emptying the rows changes no filter: the filters read the request
    arguments and the columns only *)
Lemma build_base_query_rows_reset (w : World) :
  Table.build_base_query (rows_reset w) = Table.build_base_query w.
Proof.
  apply build_base_query_same; [apply same_columns_rows_reset| |]; reflexivity.
Qed.

(** ** The choice filters *)

Lemma mem_In (s : string) (l : list string) : SelectFilter.mem s l = true <-> In s l.
Proof.
  unfold SelectFilter.mem. rewrite existsb_exists. split.
  - intros (x & Hx & E). apply String.eqb_eq in E. subst x. exact Hx.
  - intros H. exists s. split; [exact H|apply String.eqb_refl].
Qed.

Lemma mem_not_In (s : string) (l : list string) :
  SelectFilter.mem s l = false <-> ~ In s l.
Proof.
  rewrite <- mem_In. destruct (SelectFilter.mem s l); split; intros H;
    try reflexivity; try discriminate; try (intros E; discriminate E).
  exfalso. apply H. reflexivity.
Qed.

Lemma truthy_opt_Some (s : option string) :
  truthy_opt s = true <-> exists v, s = Some v /\ v <> "".
Proof.
  destruct s as [v|]; simpl.
  - destruct (String.eqb_spec v ""); simpl; split.
    + discriminate.
    + intros (v' & [= <-] & H). contradiction.
    + intros _. exists v. split; [reflexivity|assumption].
    + reflexivity.
  - split; [discriminate|]. intros (v & H & _). discriminate H.
Qed.

Lemma select_init_inv (cls : Class) (attribute_name : string)
    (C : list SelectFilter.choice) (request_args : gmap string string)
    (default : option string) (f : SelectFilter.t) :
  SelectFilter.init cls attribute_name C request_args default = Ok f ->
  exists a, getattr (class_obj cls) attribute_name = Ok a
    /\ f = {| SelectFilter.cls := cls; SelectFilter.attribute := self_of a;
              SelectFilter.attribute_name := attribute_name;
              SelectFilter.request_args := request_args;
              SelectFilter.choices :=
                {| SelectFilter.name := "all"; SelectFilter.description := "모두" |} :: C;
              SelectFilter.default := default |}.
Proof.
  unfold SelectFilter.init. intros H.
  destruct (getattr (class_obj cls) attribute_name) as [a|e]; simpl in H;
    [|discriminate H].
  exists a. split; [reflexivity|]. injection H as <-. reflexivity.
Qed.

(** [__query__] as a function of the selector and of the declared names *)
Lemma select_query_cases (cls : Class) (attribute_name : string)
    (C : list SelectFilter.choice) (request_args : gmap string string)
    (default : option string) (f : SelectFilter.t) :
  SelectFilter.init cls attribute_name C request_args default = Ok f ->
  SelectFilter.query f
  = match selector attribute_name request_args default with
    | None => Ok (Some (in_ (SelectFilter.attribute f) ("all" :: names C)))
    | Some v =>
        if String.eqb v "" then Ok (Some (in_ (SelectFilter.attribute f) ("all" :: names C)))
        else if negb (SelectFilter.mem v ("all" :: names C)) then Raise TypeError
        else if String.eqb v "all" then Ok None
        else Ok (Some (equals (SelectFilter.attribute f) (PyStr v)))
    end.
Proof.
  intros Hinit. apply select_init_inv in Hinit as (a & _ & ->).
  unfold SelectFilter.query, selector. cbn [SelectFilter.attribute_name
    SelectFilter.request_args SelectFilter.default SelectFilter.choices
    SelectFilter.attribute].
  change (SelectFilter.name <$> _ :: C) with ("all" :: names C).
  destruct (Py.get request_args ("select." +:+ attribute_name) default) as [v|];
    [|reflexivity].
  cbn [truthy_opt SelectFilter.mem_opt format_opt opt_to_val].
  destruct (String.eqb_spec v ""); [reflexivity|]. cbn [negb].
  destruct (SelectFilter.mem v ("all" :: names C)); [|reflexivity]. cbn [negb].
  destruct (String.eqb_spec v "all") as [->|Hv].
  - rewrite bool_decide_eq_true_2 by reflexivity. reflexivity.
  - rewrite bool_decide_eq_false_2; [reflexivity|]. intros [= E]. contradiction.
Qed.




(** *** Failure and its propagation through the table *)

Lemma build_base_query_loop_raises (w : World) (pre post : list Filter)
    (g : Filter) (e : exn) (query : Query) :
  Forall (fun g' => exists q, filter_query w g' = Ok q) pre ->
  filter_query w g = Raise e ->
  Table.build_base_query_loop w (pre ++ g :: post) query = Raise e.
Proof.
  intros Hpre Hg. revert query.
  induction Hpre as [|g' pre (q & Hq) _ IH]; intros query; simpl.
  - rewrite Hg. reflexivity.
  - rewrite Hq. simpl. apply IH.
Qed.

Lemma select_raises_with_query (w : World) (offset limit : PyVal) (e : exn) :
  Table.build_base_query w = Raise e ->
  fst (Table.select offset limit w) = Raise e.
Proof.
  intros H. unfold Table.select, bindM, Table.update_table.
  unfold Table.query, bindM, read, lift.
  change (Table.build_base_query _) with (Table.build_base_query (rows_reset w)).
  rewrite build_base_query_rows_reset, H. reflexivity.
Qed.

(** X29. The exception that leaves [SelectFilter.__query__] is never a
    [BadChoice]: it is the [TypeError] of the call
    [BadChoice(description=...)], which passes a keyword to a class that
    takes none. *)
Lemma select_filter_raises_type_error (cls : Class) (attribute_name : string)
    (C : list SelectFilter.choice) (request_args : gmap string string)
    (default : option string) (f : SelectFilter.t) (e : exn) :
  SelectFilter.init cls attribute_name C request_args default = Ok f ->
  SelectFilter.query f = Raise e -> e = TypeError.
Proof.
  intros Hinit. rewrite (select_query_cases _ _ _ _ _ _ Hinit).
  destruct (selector attribute_name request_args default) as [v|]; [|discriminate].
  destruct (v =? "")%string; [discriminate|].
  destruct (SelectFilter.mem v ("all" :: names C)); cbn [negb].
  - destruct (v =? "all")%string; discriminate.
  - intros [= <-]. reflexivity.
Qed.

Lemma select_filter_raises_type_error_witness :
  SelectFilter.query (Sample.genre_filter Sample.genres {[ "select.genre" := "jazz" ]} None)
  = Raise TypeError.
Proof.
  assert (H : exists e, SelectFilter.query
                (Sample.genre_filter Sample.genres {[ "select.genre" := "jazz" ]} None)
              = Raise e) by (eexists; reflexivity).
  destruct H as (e & He). rewrite He. f_equal.
  exact (select_filter_raises_type_error Sample.Music "genre" Sample.genres
           {[ "select.genre" := "jazz" ]} None _ e eq_refl He).
Defined.

(** C6, as the code has it.  [SelectFilter.__query__] raises exactly when
    the selector (the request argument, or the default of the filter when
    the argument is absent) is a string that is not empty and is outside
    ["all"] and the declared choices; nothing in the table catches the
    exception: [build_base_query], [count] and [select] raise it too. *)
Theorem select_filter_bad_choice (cls : Class) (attribute_name : string)
    (C : list SelectFilter.choice) (request_args : gmap string string)
    (default : option string) (f : SelectFilter.t) :
  SelectFilter.init cls attribute_name C request_args default = Ok f ->
  (raises (SelectFilter.query f) <->
   exists v, selector attribute_name request_args default = Some v
             /\ v <> "" /\ ~ In v ("all" :: names C))
  /\ (forall e w pre post,
        SelectFilter.query f = Raise e ->
        _filters (table w) = pre ++ FSelect (ASelectFilter f) :: post ->
        Forall (fun g => exists q, filter_query w g = Ok q) pre ->
        Table.build_base_query w = Raise e
        /\ Table.count w = Raise e
        /\ forall offset limit, fst (Table.select offset limit w) = Raise e).
Proof.
  intros Hinit. rewrite (select_query_cases _ _ _ _ _ _ Hinit).
  split.
  - unfold raises.
    destruct (selector attribute_name request_args default) as [v|].
    + destruct (String.eqb_spec v "") as [->|Hne].
      * split; [intros (e & He); discriminate He|].
        intros (v & [= <-] & Hv & _). contradiction.
      * destruct (SelectFilter.mem v ("all" :: names C)) eqn:Hmem; cbn [negb].
        -- split.
           ++ destruct (v =? "all")%string; intros (e & He); discriminate He.
           ++ intros (v' & [= <-] & _ & Hout). apply mem_In in Hmem. contradiction.
        -- split; [|intros _; eexists; reflexivity].
           intros _. exists v. apply mem_not_In in Hmem. auto.
    + split; [intros (e & He); discriminate He|].
      intros (v & Hv & _). discriminate Hv.
  - rewrite <- (select_query_cases _ _ _ _ _ _ Hinit).
    intros e w pre post He Hfilters Hpre.
    assert (Hbase : Table.build_base_query w = Raise e).
    { unfold Table.build_base_query. rewrite Hfilters.
      apply build_base_query_loop_raises; [exact Hpre|exact He]. }
    split; [exact Hbase|]. split.
    + unfold Table.count. rewrite Hbase. reflexivity.
    + intros offset limit. apply select_raises_with_query, Hbase.
Qed.

Lemma select_filter_bad_choice_witness :
  let f := Sample.genre_filter Sample.genres {[ "select.genre" := "jazz" ]} None in
  let w := Sample.world [] [FLimit {| Limit.request_args := ∅;
                                      Limit.arg_type_name := "limit_music" |};
                            FSelect (ASelectFilter f)] Sample.two_records in
  raises (SelectFilter.query f)
  /\ fst (Table.select (PyInt 0) (PyInt 10) w) = Raise TypeError.
Proof.
  cbn zeta.
  pose proof (select_filter_bad_choice Sample.Music "genre" Sample.genres
                {[ "select.genre" := "jazz" ]} None _ eq_refl) as (Hiff & Hprop).
  split.
  - apply Hiff. exists "jazz". split; [reflexivity|]. split; [discriminate|].
    simpl. intros [H|[H|[H|[]]]]; discriminate H.
  - refine (proj2 (proj2 (Hprop TypeError (Sample.world [] _ Sample.two_records)
                            [FLimit _] [] eq_refl eq_refl _)) _ _).
    repeat constructor. eexists. reflexivity.
Defined.

(** C6 as stated fails in both directions: an empty selector is supplied
    and is outside the choices, and nothing is raised; no selector is
    supplied, and the default of the filter is refused. *)
Lemma select_filter_raise_not_iff_supplied :
  (let args : gmap string string := {[ "select.genre" := "" ]} in
   args !! "select.genre" = Some ""
   /\ ~ In "" ("all" :: names Sample.genres)
   /\ SelectFilter.query (Sample.genre_filter Sample.genres args None)
      = Ok (Some (in_ (EAttr "Music" "genre") ["all"; "pop"; "rock"])))
  /\ (let args : gmap string string := ∅ in
      args !! "select.genre" = None
      /\ raises (SelectFilter.query (Sample.genre_filter Sample.genres args (Some "jazz")))).
Proof.
  cbn zeta. repeat split.
  - simpl. intros [H|[H|[H|[]]]]; discriminate H.
  - eexists. reflexivity.
Qed.

(** *** The null-aware filter *)

(** C4, as the code has it.  [NullSelectableSelectFilter.__query__] first
    runs [SelectFilter.__query__], so a sentinel has to be among the
    declared choices: then ["null"] gives the is-null predicate and
    ["not-null"] the is-not-null predicate, where the base class gives
    equality with the token; a sentinel that is not declared is refused
    like any other value that is not declared: the evaluation raises. *)
Theorem null_selectable_query (cls : Class) (attribute_name : string)
    (C : list SelectFilter.choice) (request_args : gmap string string)
    (default : option string) (f : SelectFilter.t) :
  SelectFilter.init cls attribute_name C request_args default = Ok f ->
  (request_args !! ("select." +:+ attribute_name) = Some "null" ->
   In "null" (names C) ->
   NullSelectableSelectFilter.query f = Ok (Some (is_null (SelectFilter.attribute f)))
   /\ SelectFilter.query f = Ok (Some (equals (SelectFilter.attribute f) (PyStr "null"))))
  /\ (request_args !! ("select." +:+ attribute_name) = Some "not-null" ->
      In "not-null" (names C) ->
      NullSelectableSelectFilter.query f
      = Ok (Some (isnot_null (SelectFilter.attribute f)))
      /\ SelectFilter.query f
         = Ok (Some (equals (SelectFilter.attribute f) (PyStr "not-null"))))
  /\ (forall v, v = "null" \/ v = "not-null" ->
        request_args !! ("select." +:+ attribute_name) = Some v ->
        ~ In v (names C) ->
        raises (NullSelectableSelectFilter.query f)).
Proof.
  intros Hinit.
  pose proof (select_query_cases _ _ _ _ _ _ Hinit) as Hq.
  pose proof (select_init_inv _ _ _ _ _ _ Hinit) as (a & _ & Hf).
  assert (Hsel : Py.get (SelectFilter.request_args f)
                   ("select." +:+ SelectFilter.attribute_name f)
                   (SelectFilter.default f)
                 = selector attribute_name request_args default).
  { rewrite Hf. reflexivity. }
  unfold NullSelectableSelectFilter.query. rewrite Hsel, Hq.
  unfold selector, Py.get. split; [|split].
  - intros -> Hin.
    assert (Hmem : SelectFilter.mem "null" ("all" :: names C) = true).
    { apply mem_In. right. exact Hin. }
    cbn [String.eqb Ascii.eqb Bool.eqb]. rewrite Hmem. split; reflexivity.
  - intros -> Hin.
    assert (Hmem : SelectFilter.mem "not-null" ("all" :: names C) = true).
    { apply mem_In. right. exact Hin. }
    cbn [String.eqb Ascii.eqb Bool.eqb]. rewrite Hmem. split; reflexivity.
  - intros v Hv -> Hout.
    assert (Hmem : SelectFilter.mem v ("all" :: names C) = false).
    { apply mem_not_In. intros [E|Hin]; [|contradiction].
      destruct Hv as [-> | ->]; discriminate E. }
    rewrite Hmem. destruct Hv as [-> | ->]; eexists; reflexivity.
Qed.

Lemma null_selectable_query_witness :
  NullSelectableSelectFilter.query
    (Sample.genre_filter Sample.nullable_genres {[ "select.genre" := "null" ]} None)
  = Ok (Some (is_null (EAttr "Music" "genre")))
  /\ NullSelectableSelectFilter.query
       (Sample.genre_filter Sample.nullable_genres {[ "select.genre" := "not-null" ]} None)
     = Ok (Some (isnot_null (EAttr "Music" "genre")))
  /\ raises (NullSelectableSelectFilter.query
               (Sample.genre_filter Sample.genres {[ "select.genre" := "not-null" ]} None)).
Proof.
  split; [|split].
  - refine (proj1 (proj1 (null_selectable_query Sample.Music "genre"
                            Sample.nullable_genres {[ "select.genre" := "null" ]} None
                            _ eq_refl) eq_refl _)).
    simpl. auto.
  - refine (proj1 (proj1 (proj2 (null_selectable_query Sample.Music "genre"
                            Sample.nullable_genres {[ "select.genre" := "not-null" ]} None
                            _ eq_refl)) eq_refl _)).
    simpl. auto 6.
  - refine (proj2 (proj2 (null_selectable_query Sample.Music "genre"
                            Sample.genres {[ "select.genre" := "not-null" ]} None
                            _ eq_refl)) "not-null" _ eq_refl _).
    + right. reflexivity.
    + simpl. intros [H|[H|[]]]; discriminate H.
Defined.

(** C4 as stated fails: the sentinel ["null"] is not recognised on top of
    the declared choices. *)
Lemma null_selectable_undeclared :
  let args : gmap string string := {[ "select.genre" := "null" ]} in
  SelectFilter.init Sample.Music "genre" Sample.genres args None
  = Ok (Sample.genre_filter Sample.genres args None)
  /\ args !! "select.genre" = Some "null"
  /\ raises (NullSelectableSelectFilter.query (Sample.genre_filter Sample.genres args None))
  /\ SelectFilter.query (Sample.genre_filter Sample.nullable_genres args None)
     = Ok (Some (equals (EAttr "Music" "genre") (PyStr "null"))).
Proof. cbn zeta. repeat split. eexists. reflexivity. Qed.

(** ** The search filters *)

Lemma int_type_of_string (s : string) :
  int_type (PyStr s) = Raise ValueError \/ exists z, int_type (PyStr s) = Ok (PyInt z).
Proof.
  unfold int_type. simpl. destruct (parse_int s) as [z|]; simpl; eauto.
Qed.

(** an active [Equal] whose coercion raises [ValueError] matches no row *)
Lemma equal_value_error (f : Equal.t) :
  let name := create_search_name
                (Util.camel_to_underscore (cls__name (Ilike.cls (Equal.base f)))) in
  let args := Ilike.request_args (Equal.base f) in
  args !! type name = Some (Ilike.attribute_name (Equal.base f)) ->
  Equal.type_ f (opt_to_val (args !! word name)) = Raise ValueError ->
  Equal.query f = Ok (Some false_).
Proof.
  cbn zeta. intros Htype Hword. unfold Equal.query, Py.get.
  rewrite Htype. rewrite bool_decide_eq_true_2 by reflexivity.
  destruct (Ilike.request_args (Equal.base f) !! word _) as [v|];
    rewrite Hword; reflexivity.
Qed.

Lemma equal_value_error_witness :
  Equal.query (Sample.id_equal {[ "search_music.type" := "id";
                                  "search_music.word" := "abc" ]})
  = Ok (Some false_).
Proof. apply equal_value_error; reflexivity. Defined.

(** with [int] as the type, [EqualAlias] never raises: its guard [word and
    ...] lets only a non-empty string reach the coercion *)
Lemma equal_alias_int_total (identifier : string) (alias_attr : IlikeAlias.alias)
    (request_args : gmap string string) :
  ~ raises (EqualAlias.query (EqualAlias.init identifier alias_attr int_type request_args)).
Proof.
  intros (e & He). unfold EqualAlias.query, EqualAlias.init, IlikeAlias.init, Py.get in He.
  cbn [EqualAlias.base EqualAlias.type_ IlikeAlias.identifier IlikeAlias.request_args
       IlikeAlias.alias_attr] in He.
  destruct (request_args !! word (create_search_name identifier)) as [v|];
    [|discriminate He].
  destruct (truthy_opt (Some v) && _); [|discriminate He].
  cbn [opt_to_val] in He.
  destruct (int_type_of_string v) as [H|(z & H)]; rewrite H in He; discriminate He.
Qed.

(** with [int] as the type, [Equal] raises exactly when it is active and the
    word is absent *)
Lemma equal_int_raises (cls : Class) (attribute_name : string)
    (request_args : gmap string string) (f : Equal.t) :
  Equal.init cls attribute_name int_type request_args = Ok f ->
  let name := create_search_name (Util.camel_to_underscore (cls__name cls)) in
  raises (Equal.query f) <->
  request_args !! type name = Some attribute_name /\ request_args !! word name = None.
Proof.
  unfold Equal.init, Ilike.init. intros Hinit.
  destruct (getattr (class_obj cls) attribute_name) as [a|e]; [|discriminate Hinit].
  simpl in Hinit. injection Hinit as <-. cbn zeta.
  unfold raises, Equal.query, Py.get.
  cbn [Equal.base Equal.type_ Ilike.cls Ilike.request_args Ilike.attribute_name
       Ilike.attribute].
  destruct (request_args !! type _) as [t|].
  - destruct (decide (t = attribute_name)) as [->|Hne].
    + rewrite bool_decide_eq_true_2 by reflexivity.
      destruct (request_args !! word _) as [v|]; cbn [opt_to_val].
      * split; [|intros [_ H]; discriminate H].
        destruct (int_type_of_string v) as [H|(z & H)]; rewrite H;
          intros (e & He); discriminate He.
      * split; [auto|]. intros _. exists TypeError. reflexivity.
    + rewrite bool_decide_eq_false_2 by (intros [= E]; contradiction).
      split; [intros (e & He); discriminate He|].
      intros [[= E] _]. contradiction.
  - rewrite bool_decide_eq_false_2 by discriminate.
    split; [intros (e & He); discriminate He|]. intros [H _]. discriminate H.
Qed.

Lemma equal_int_raises_witness :
  raises (Equal.query (Sample.id_equal {[ "search_music.type" := "id" ]})).
Proof.
  apply (equal_int_raises Sample.Music "id" {[ "search_music.type" := "id" ]} _ eq_refl).
  split; reflexivity.
Defined.

(** C7. An [Equal] filter of type [int] that is active while the request
    has no word: [int(None)] raises [TypeError], the handler is for
    [ValueError] only, and the exception leaves [__query__].  On the same
    request [EqualAlias] stays inert behind its guard [word and ...], and
    both give the always-false predicate for the word ["abc"]. *)
Theorem equal_absent_word_raises :
  let args : gmap string string := {[ "search_music.type" := "id" ]} in
  let args_abc : gmap string string :=
    {[ "search_music.type" := "id"; "search_music.word" := "abc" ]} in
  Equal.init Sample.Music "id" int_type args = Ok (Sample.id_equal args)
  /\ args !! type (create_search_name (Util.camel_to_underscore "Music")) = Some "id"
  /\ int_type (opt_to_val (args !! word (create_search_name (Util.camel_to_underscore "Music"))))
     = Raise TypeError
  /\ Equal.query (Sample.id_equal args) = Raise TypeError
  /\ EqualAlias.query (Sample.id_equal_alias args) = Ok None
  /\ Equal.query (Sample.id_equal args_abc) = Ok (Some false_)
  /\ EqualAlias.query (Sample.id_equal_alias args_abc) = Ok (Some false_).
Proof. cbn zeta. repeat split. Qed.

(** *** The set of search filters *)

Section IlikeSetQuery.

Variable w : World.

Lemma query_filters_spec (fs : list Filter) (filter_ : list pred) :
  Forall (fun f => isinstance_Ilike f = true -> exists q, filter_query w f = Ok q) fs ->
  IlikeSet.query_filters fs filter_ = Ok (filter_ ++ flat_map active_pred fs).
Proof.
  intros H. revert filter_. induction H as [|f fs Hf _ IH]; intros filter_.
  - simpl. rewrite app_nil_r. reflexivity.
  - destruct f as [f|f|f|f]; simpl; try apply IH.
    destruct (Hf eq_refl) as (q & Hq). simpl in Hq. rewrite Hq. simpl.
    destruct q as [p|]; rewrite IH; [|reflexivity].
    rewrite <- app_assoc. reflexivity.
Qed.

Lemma query_columns_spec (columns : list loc) (filter_ : list pred) :
  Forall (fun f => isinstance_Ilike f = true -> exists q, filter_query w f = Ok q)
         (flat_map (fun column => Column.filters (column_at w column)) columns) ->
  IlikeSet.query_columns w columns filter_
  = Ok (filter_ ++ flat_map active_pred
          (flat_map (fun column => Column.filters (column_at w column)) columns)).
Proof.
  revert filter_. induction columns as [|column columns IH]; intros filter_ H; simpl.
  - rewrite app_nil_r. reflexivity.
  - simpl in H. apply Forall_app in H as [Hhere Hrest].
    rewrite (query_filters_spec _ _ Hhere). simpl.
    rewrite (IH _ Hrest), flat_map_app, app_assoc. reflexivity.
Qed.

End IlikeSetQuery.

(** C9, as the code has it.  [IlikeSet.__query__] walks every column of the
    table and every filter of the column, takes the predicate of every
    filter that is an instance of [Ilike] (the class itself, [IlikeAlias],
    and also [Equal] and [EqualAlias], which derive from it) and is active,
    and returns their disjunction, in that order; it returns no predicate
    when none is active.  This is for filters that evaluate without an
    exception. *)
Theorem ilike_set_query (w : World) (self : IlikeSet.t) :
  Forall (fun f => isinstance_Ilike f = true -> exists q, filter_query w f = Ok q)
         (all_filters w) ->
  IlikeSet.query w self = Ok (or_opt (flat_map active_pred (all_filters w))).
Proof.
  intros H. unfold IlikeSet.query.
  rewrite (query_columns_spec w _ _ H). simpl.
  fold (all_filters w). destruct (flat_map active_pred (all_filters w)); reflexivity.
Qed.

Lemma ilike_set_query_witness :
  let args : gmap string string :=
    {[ "search_music.type" := "name"; "search_music.word" := "blu" ]} in
  IlikeSet.query
    (Sample.world [FIlike (AnEqual (Sample.id_equal args));
                   FIlike (AnIlike (Sample.name_ilike args))] [] Sample.two_records)
    Sample.search_set
  = Ok (Some (or_ [ilike (EAttr "Music" "name") "%blu%"])).
Proof.
  cbn zeta. refine (ilike_set_query _ _ _).
  repeat constructor; intros _; eexists; reflexivity.
Defined.

(** C9 as stated fails: no substring filter is active (the table has none),
    and the set still returns a predicate, that of a typed equality. *)
Lemma ilike_set_collects_equal :
  let args : gmap string string :=
    {[ "search_music.type" := "id"; "search_music.word" := "5" ]} in
  let w := Sample.world [FIlike (AnEqual (Sample.id_equal args))] [] Sample.two_records in
  Forall (fun f => is_substring_filter f = true -> filter_query w f = Ok None)
         (all_filters w)
  /\ IlikeSet.query w Sample.search_set
     = Ok (Some (or_ [equals (EAttr "Music" "id") (PyInt 5)])).
Proof.
  cbn zeta. split; [|reflexivity].
  repeat constructor. intros H. discriminate H.
Qed.

(** ** The table *)

(** *** Ordering *)

Lemma order_loop_none (w : World) (columns : list loc) (order : list order_term) :
  Forall (fun l => Column.order_by (column_at w l) = None) columns ->
  Table.order_loop w columns order = order.
Proof.
  intros H. induction H as [|l columns Hl _ IH]; simpl.
  - reflexivity.
  - rewrite Hl. exact IH.
Qed.

Lemma order_loop_grows (w : World) (columns : list loc) (order : list order_term) :
  exists more, Table.order_loop w columns order = order ++ more
               /\ (columns = [] -> more = []).
Proof.
  revert order. induction columns as [|l columns IH]; intros order; simpl.
  - exists []. rewrite app_nil_r. auto.
  - destruct (Column.order_by (column_at w l)) as [d|].
    + destruct (IH (order ++ [Order.query (Order.init (cls (table w))
                                             (Column.attr (column_at w l)) (Some d))]))
        as (more & -> & _).
      eexists. rewrite <- app_assoc. split; [reflexivity|discriminate].
    + destruct (IH order) as (more & -> & _).
      exists more. split; [reflexivity|discriminate].
Qed.

(** assigning [order_by] changes no visibility: the property [columns]
    gives the same list *)
Lemma columns_after_order_by (w : World) (l : loc) (o : option Order.direction) :
  Table.columns
    {| column_at := fun l' => if Nat.eqb l' l then Column.set_order_by o (column_at w l)
                              else column_at w l';
       table := table w; stdout := stdout w |}
  = Table.columns w.
Proof.
  unfold Table.columns. cbn [table column_at].
  apply filter_ext. intros l'. destruct (Nat.eqb_spec l' l) as [->|_]; reflexivity.
Qed.

(** C8, as the code has it.  When no visible column has a sort direction
    and the table has a visible column, [_order_queries] gives descending
    order on the first visible column, [self.columns[0]], and stores
    ["desc"] in that column object; no other column object changes, hidden
    ones included, and the table itself does not change.  The query that
    [Table.query] builds is ordered by that single term. *)
Theorem order_queries_fallback (w : World) (column0 : loc) (rest : list loc) :
  Table.columns w = column0 :: rest ->
  Forall (fun l => Column.order_by (column_at w l) = None) (Table.columns w) ->
  let k := Column.attr (column_at w column0) in
  let term := desc (self_of (Util._get_data (source_obj (cls (table w))) k
                               (Obj (EText k) []))) in
  exists w',
    Table._order_queries w = (Ok [term], w')
    /\ column_at w' column0
       = Column.set_order_by (Some Order.DESCENDANT) (column_at w column0)
    /\ (forall l, l <> column0 -> column_at w' l = column_at w l)
    /\ table w' = table w
    /\ (forall base, Table.build_base_query w = Ok base ->
          Table.query w = (Ok (Sql.order_by base [term]), w')).
Proof.
  intros Hcols Hnone. cbn zeta.
  assert (Horder : Table._order_queries w
                   = (Ok [desc (self_of (Util._get_data (source_obj (cls (table w)))
                                           (Column.attr (column_at w column0))
                                           (Obj (EText (Column.attr (column_at w column0))) [])))],
                      snd (Table.update_column column0
                             (Column.set_order_by (Some Order.DESCENDANT)) w))).
  { unfold Table._order_queries, bindM, read.
    rewrite (order_loop_none _ _ _ Hnone), Hcols. reflexivity. }
  eexists. split; [exact Horder|]. split; [|split; [|split]].
  - cbn. rewrite Nat.eqb_refl. reflexivity.
  - intros l Hl. cbn. destruct (Nat.eqb_spec l column0); [contradiction|reflexivity].
  - reflexivity.
  - intros base Hbase. unfold Table.query, bindM, read, lift.
    rewrite Hbase, Horder. reflexivity.
Qed.

Lemma order_queries_fallback_witness :
  let w := Sample.world [] [] Sample.two_records in
  exists w',
    Table._order_queries w = (Ok [desc (EAttr "Music" "name")], w')
    /\ Column.order_by (column_at w' 1) = Some Order.DESCENDANT
    /\ column_at w' 2 = column_at w 2
    /\ table w' = table w.
Proof.
  cbn zeta.
  destruct (order_queries_fallback (Sample.world [] [] Sample.two_records) 1 [2] eq_refl)
    as (w' & Horder & H1 & Hothers & Htable & _).
  - repeat constructor.
  - exists w'. split; [exact Horder|]. split; [|split].
    + rewrite H1. reflexivity.
    + apply Hothers. discriminate.
    + exact Htable.
Defined.

(** C8 as stated fails: the first declared column is hidden, and the
    fallback goes to the first visible one. *)
Lemma fallback_skips_hidden_column :
  let w := Sample.world [] [] Sample.two_records in
  hd_error (_columns (table w)) = Some 0
  /\ Column.visible (column_at w 0) = false
  /\ (forall l, Column.order_by (column_at w l) = None)
  /\ exists w',
       Table._order_queries w = (Ok [desc (EAttr "Music" "name")], w')
       /\ Column.order_by (column_at w' 0) = None
       /\ Column.order_by (column_at w' 1) = Some Order.DESCENDANT.
Proof.
  cbn zeta. split; [reflexivity|]. split; [reflexivity|]. split.
  - intros [|[|l]]; reflexivity.
  - exists (snd (Table._order_queries (Sample.world [] [] Sample.two_records))).
    split; [reflexivity|]. split; reflexivity.
Qed.

(** a table without a visible column has no first column to fall back to *)
Lemma fallback_without_column (w : World) :
  Table.columns w = [] -> Table._order_queries w = (Raise IndexError, w).
Proof.
  intros H. unfold Table._order_queries, bindM, read. rewrite H. reflexivity.
Qed.

(** *** Materialising the rows *)

Lemma order_queries_ok (w w' : World) (order : list order_term) :
  Table._order_queries w = (Ok order, w') ->
  Table.columns w' <> [] /\ table w' = table w.
Proof.
  unfold Table._order_queries, bindM, read.
  destruct (order_loop_grows w (Table.columns w) []) as (more & Hloop & Hempty).
  rewrite Hloop. cbn [app].
  destruct more as [|term more].
  - destruct (Table.columns w) as [|column0 rest] eqn:Hcols.
    + intros H. discriminate H.
    + unfold Table.update_column, ret. intros [= _ <-].
      rewrite columns_after_order_by, Hcols. split; [discriminate|reflexivity].
  - unfold ret. intros [= _ <-]. split; [|reflexivity].
    intros Hcols. specialize (Hempty Hcols). discriminate Hempty.
Qed.

Lemma query_ok (w w' : World) (q : Query) :
  Table.query w = (Ok q, w') ->
  Table.columns w' <> [] /\ table w' = table w.
Proof.
  unfold Table.query, bindM, read, lift.
  destruct (Table.build_base_query w) as [base|e]; [|discriminate].
  destruct (Table._order_queries w) as [[order|e] w1] eqn:Horder; [|discriminate].
  intros [= _ <-]. apply (order_queries_ok _ _ _ Horder).
Qed.

(** no binding of [default] is in scope in [select] *)
Lemma default_is_unbound :
  load_name select_locals schema_globals "default" = Raise (NameError "default").
Proof. vm_compute. reflexivity. Qed.

Lemma emit_only_prints (p : printed) : only_prints (emit p).
Proof. intros w. eexists. split; [reflexivity|]. split; reflexivity. Qed.

Lemma seq_only_prints (m k : M unit) :
  only_prints m -> only_prints k -> only_prints (m ;;; k).
Proof.
  intros Hm Hk w. unfold bindM.
  destruct (Hm w) as (w1 & -> & Hc1 & Ht1).
  destruct (Hk w1) as (w2 & -> & Hc2 & Ht2).
  exists w2. split; [reflexivity|]. split; congruence.
Qed.

Lemma print_columns_only_prints (columns : list ColumnMeta) :
  only_prints (Table.print_columns columns).
Proof.
  induction columns as [|c2 columns IH]; cbn [Table.print_columns].
  - intros w. exists w. repeat split.
  - repeat apply seq_only_prints; try apply emit_only_prints. exact IH.
Qed.

Lemma select_cells_raises (w : World) (i : nat) (row : Instance) (j : nat)
    (columns : list loc) (_row : list Cell.t) :
  columns <> [] ->
  fst (Table.select_cells i row j columns _row w) = Raise (NameError "default").
Proof.
  destruct columns as [|l columns]; [contradiction|]. intros _.
  cbn [Table.select_cells]. unfold bindM, read, emit, lift.
  rewrite default_is_unbound. reflexivity.
Qed.

Lemma columns_frame (w w' : World) :
  column_at w' = column_at w -> table w' = table w ->
  Table.columns w' = Table.columns w.
Proof. intros Hc Ht. unfold Table.columns. rewrite Hc, Ht. reflexivity. Qed.

Lemma select_rows_raises (w : World) (i : nat) (q : list Instance) :
  q <> [] -> Table.columns w <> [] ->
  fst (Table.select_rows i q w) = Raise (NameError "default").
Proof.
  destruct q as [|row q]; [contradiction|]. intros _ Hcols.
  cbn [Table.select_rows]. unfold bindM at 1.
  destruct (emit_only_prints (Pprint_table (sa_table row)) w) as (w1 & -> & Hc1 & Ht1).
  unfold bindM at 1.
  destruct (emit_only_prints Print_nothing w1) as (w2 & -> & Hc2 & Ht2).
  unfold bindM at 1.
  destruct (print_columns_only_prints (sa_table row) w2) as (w3 & -> & Hc3 & Ht3).
  unfold bindM at 1. unfold read at 1. unfold bindM at 1.
  assert (Hcols3 : Table.columns w3 <> []).
  { rewrite (columns_frame w2 w3), (columns_frame w1 w2), (columns_frame w w1);
      congruence. }
  pose proof (select_cells_raises w3 i row 0 _ [] Hcols3) as Hr.
  destruct (Table.select_cells i row 0 (Table.columns w3) [] w3) as [[_row|e] w4];
    simpl in Hr; [discriminate Hr|].
  injection Hr as ->. reflexivity.
Qed.

Lemma select_rows_ok (w w' : World) (i : nat) (q : list Instance) :
  Table.columns w <> [] ->
  Table.select_rows i q w = (Ok tt, w') -> q = [].
Proof.
  intros Hcols H. destruct q as [|row q]; [reflexivity|].
  pose proof (select_rows_raises w i (row :: q)) as Hr.
  rewrite H in Hr. discriminate Hr; [discriminate|exact Hcols].
Qed.

(** [select] up to the loop over the rows *)
Lemma select_unfold (w : World) (offset limit : PyVal) :
  Table.select offset limit w
  = match Table.query (rows_reset w) with
    | (Ok q, w1) =>
        match Table.select_rows 0 (fetch (session (table w1))
                                     (Table.sliced q offset limit)) w1 with
        | (Ok _, w2) =>
            match Table.count w2 with
            | Ok count =>
                match Pager.init limit offset (PyInt count) (PyInt 10) with
                | Ok pager => Table.update_table (Table.set_pager pager) w2
                | Raise e => (Raise e, w2)
                end
            | Raise e => (Raise e, w2)
            end
        | (Raise e, w2) => (Raise e, w2)
        end
    | (Raise e, w1) => (Raise e, w1)
    end.
Proof.
  unfold Table.select, bindM, read, lift, Table.update_table.
  change {| column_at := column_at w; table := Table.set_rows [] (table w);
            stdout := stdout w |}
    with (rows_reset w).
  destruct (Table.query (rows_reset w)) as [[q|e] w1]; [|reflexivity].
  destruct (Table.select_rows 0 _ w1) as [[[]|e] w2]; [|reflexivity].
  destruct (Table.count w2) as [count|e]; [|reflexivity].
  destruct (Pager.init limit offset (PyInt count) (PyInt 10)) as [pager|e]; reflexivity.
Qed.

(** C1. Whenever the query that [select] builds is iterated and yields a
    row, [select] raises [NameError] for the name [default], which nothing
    binds: it can return the table only when the slice is empty. *)
Theorem select_raises_name_error (w : World) (offset limit : PyVal) :
  (forall q w1,
      Table.query (rows_reset w) = (Ok q, w1) ->
      fetch (session (table w)) (Table.sliced q offset limit) <> [] ->
      fst (Table.select offset limit w) = Raise (NameError "default"))
  /\ (forall w',
        Table.select offset limit w = (Ok tt, w') ->
        exists q w1,
          Table.query (rows_reset w) = (Ok q, w1)
          /\ fetch (session (table w)) (Table.sliced q offset limit) = []).
Proof.
  rewrite select_unfold. split.
  - intros q w1 Hq Hrows. rewrite Hq.
    destruct (query_ok _ _ _ Hq) as [Hcols Htable]. rewrite Htable.
    change (session (table (rows_reset w))) with (session (table w)).
    pose proof (select_rows_raises w1 0 _ Hrows Hcols) as Hr.
    destruct (Table.select_rows 0 _ w1) as [[[]|e] w2]; simpl in Hr;
      [discriminate Hr|]. injection Hr as ->. reflexivity.
  - intros w'.
    destruct (Table.query (rows_reset w)) as [[q|e] w1] eqn:Hq; [|discriminate].
    destruct (query_ok _ _ _ Hq) as [Hcols Htable]. rewrite Htable.
    change (session (table (rows_reset w))) with (session (table w)).
    destruct (Table.select_rows 0 _ w1) as [[[]|e] w2] eqn:Hrows; [|discriminate].
    intros _. exists q, w1. split; [reflexivity|].
    apply (select_rows_ok _ _ _ _ Hcols Hrows).
Qed.

Lemma select_raises_name_error_witness :
  fst (Table.select (PyInt 0) (PyInt 10) (Sample.world [] [] Sample.two_records))
  = Raise (NameError "default")
  /\ fst (Table.select (PyInt 0) (PyInt 10) (Sample.world [] [] Sample.no_record))
     = Ok tt.
Proof.
  split.
  - refine (proj1 (select_raises_name_error
                     (Sample.world [] [] Sample.two_records) (PyInt 0) (PyInt 10))
              _ _ eq_refl _).
    discriminate.
  - destruct (proj2 (select_raises_name_error
                       (Sample.world [] [] Sample.no_record) (PyInt 0) (PyInt 10))
                _ eq_refl) as (q & w1 & _ & _).
    reflexivity.
Defined.

(** ** Further properties *)

(** *** [dodotable.util] *)












(** the bound on the positions visited is enough: more turns change nothing *)
Lemma span_lower_length (s : string) :
  String.length (snd (Util.span_lower s)) <= String.length s.
Proof.
  induction s as [|c s IH]; simpl; [lia|].
  destruct (Util.is_lower c); [|simpl; lia].
  destruct (Util.span_lower s) as [l r]. simpl in *. lia.
Qed.

Lemma first_cap_sub_enough (fuel : nat) (s : string) :
  String.length s <= fuel ->
  Util.first_cap_sub (S fuel) s = Util.first_cap_sub fuel s.
Proof.
  revert s. induction fuel as [|fuel IH]; intros s Hlen.
  - destruct s; [reflexivity|simpl in Hlen; lia].
  - destruct s as [|c [|u [|l rest]]]; [reflexivity| | |].
    + change (String c (Util.first_cap_sub (S fuel) "")
              = String c (Util.first_cap_sub fuel "")).
      rewrite IH by (simpl; lia). reflexivity.
    + change (String c (Util.first_cap_sub (S fuel) (String u ""))
              = String c (Util.first_cap_sub fuel (String u ""))).
      rewrite IH by (simpl in *; lia). reflexivity.
    + change (Util.first_cap_sub (S (S fuel)) (String c (String u (String l rest))))
        with (if negb (Util.is_newline c) && Util.is_upper u && Util.is_lower l then
                let '(run, rest') := Util.span_lower rest in
                String c (String "_" (String u (String l
                  (run +:+ Util.first_cap_sub (S fuel) rest'))))
              else String c (Util.first_cap_sub (S fuel) (String u (String l rest)))).
      change (Util.first_cap_sub (S fuel) (String c (String u (String l rest))))
        with (if negb (Util.is_newline c) && Util.is_upper u && Util.is_lower l then
                let '(run, rest') := Util.span_lower rest in
                String c (String "_" (String u (String l
                  (run +:+ Util.first_cap_sub fuel rest'))))
              else String c (Util.first_cap_sub fuel (String u (String l rest)))).
      pose proof (span_lower_length rest) as Hspan.
      destruct (Util.span_lower rest) as [run rest']. cbn [snd] in Hspan.
      rewrite (IH rest') by (simpl in *; lia).
      rewrite (IH (String u (String l rest))) by (simpl in *; lia).
      reflexivity.
Qed.

Lemma all_cap_sub_enough (fuel : nat) (s : string) :
  String.length s <= fuel ->
  Util.all_cap_sub (S fuel) s = Util.all_cap_sub fuel s.
Proof.
  revert s. induction fuel as [|fuel IH]; intros s Hlen.
  - destruct s; [reflexivity|simpl in Hlen; lia].
  - destruct s as [|c [|u rest]]; [reflexivity|reflexivity|].
    change (Util.all_cap_sub (S (S fuel)) (String c (String u rest)))
      with (if (Util.is_lower c || Util.is_digit c) && Util.is_upper u then
              String c (String "_" (String u (Util.all_cap_sub (S fuel) rest)))
            else String c (Util.all_cap_sub (S fuel) (String u rest))).
    change (Util.all_cap_sub (S fuel) (String c (String u rest)))
      with (if (Util.is_lower c || Util.is_digit c) && Util.is_upper u then
              String c (String "_" (String u (Util.all_cap_sub fuel rest)))
            else String c (Util.all_cap_sub fuel (String u rest))).
    rewrite (IH rest) by (simpl in *; lia).
    rewrite (IH (String u rest)) by (simpl in *; lia).
    reflexivity.
Qed.

(** *** [dodotable.condition] *)

Lemma append_length (a b : string) :
  String.length (a +:+ b) = String.length a + String.length b.
Proof. induction a as [|c a IH]; simpl; [reflexivity|]. rewrite IH. reflexivity. Qed.

Lemma append_inj_l (a b s : string) : a +:+ s = b +:+ s -> a = b.
Proof.
  revert b. induction a as [|c a IH]; intros [|d b] H.
  - reflexivity.
  - apply (f_equal String.length) in H. rewrite !append_length in H. simpl in H. lia.
  - apply (f_equal String.length) in H. rewrite !append_length in H. simpl in H. lia.
  - simpl in H. injection H as -> H. f_equal. apply IH, H.
Qed.

Lemma last_char_append (a : string) (c : ascii) (b : string) :
  last_char (a +:+ String c b) = last_char (String c b).
Proof.
  induction a as [|d a IH]; [reflexivity|].
  rewrite <- IH. change (String d a +:+ String c b) with (String d (a +:+ String c b)).
  destruct (a +:+ String c b) eqn:E; [|reflexivity].
  destruct a; discriminate E.
Qed.

(** X3. The request parameters of two search targets are the same only
    when the targets are; the parameter for the word is never the one for
    the type, of the same target or of another; and no search parameter is
    the parameter [select.<attribute>] of a choice filter. *)
Theorem search_names_distinct (n n' attribute_name : string) :
  (word (create_search_name n) = word (create_search_name n') -> n = n')
  /\ (type (create_search_name n) = type (create_search_name n') -> n = n')
  /\ word (create_search_name n) <> type (create_search_name n')
  /\ word (create_search_name n) <> "select." +:+ attribute_name
  /\ type (create_search_name n) <> "select." +:+ attribute_name.
Proof.
  unfold create_search_name. cbn [word type]. repeat split.
  - intros H. apply append_inj_r in H. apply append_inj_l in H. exact H.
  - intros H. apply append_inj_r in H. apply append_inj_l in H. exact H.
  - intros H. apply append_inj_r in H. apply (f_equal last_char) in H.
    rewrite !last_char_append in H. discriminate H.
  - intros H. discriminate H.
  - intros H. discriminate H.
Qed.

Lemma search_names_distinct_witness :
  Util.camel_to_underscore "Music" = "music"
  /\ word (create_search_name "music") <> type (create_search_name "album").
Proof.
  pose proof (search_names_distinct (Util.camel_to_underscore "Music") "music" "genre")
    as (Hword & _).
  pose proof (search_names_distinct "music" "album" "genre") as (_ & _ & Hne & _).
  split; [apply Hword; reflexivity|exact Hne].
Defined.

(** X4. [Ilike.__query__] never raises and gives a predicate exactly when
    the type parameter names its attribute; it does not look whether a word
    came: without the word parameter the pattern is ["%None%"], and with an
    empty word it is ["%%"]. *)
Theorem ilike_activation (f : Ilike.t) :
  let name := create_search_name (Util.camel_to_underscore (cls__name (Ilike.cls f))) in
  let args := Ilike.request_args f in
  (exists q, Ilike.query f = Ok q
     /\ (is_Some q <-> args !! type name = Some (Ilike.attribute_name f)))
  /\ (args !! type name = Some (Ilike.attribute_name f) ->
      (args !! word name = None ->
       Ilike.query f = Ok (Some (ilike (Ilike.attribute f) "%None%")))
      /\ (forall v, args !! word name = Some v ->
            Ilike.query f = Ok (Some (ilike (Ilike.attribute f) ("%" +:+ v +:+ "%"))))).
Proof.
  cbn zeta. unfold Ilike.query, Py.get. split.
  - destruct (Ilike.request_args f !! type _) as [t|].
    + destruct (decide (t = Ilike.attribute_name f)) as [->|Hne].
      * rewrite bool_decide_eq_true_2 by reflexivity.
        eexists. split; [reflexivity|]. split; [reflexivity|]. intros _. eexists. reflexivity.
      * rewrite bool_decide_eq_false_2 by (intros [= E]; contradiction).
        eexists. split; [reflexivity|]. split.
        -- intros [q Hq]. discriminate Hq.
        -- intros [= E]. contradiction.
    + rewrite bool_decide_eq_false_2 by discriminate.
      eexists. split; [reflexivity|]. split.
      * intros [q Hq]. discriminate Hq.
      * discriminate.
  - intros ->. rewrite bool_decide_eq_true_2 by reflexivity.
    split; [intros ->; reflexivity|]. intros v ->. reflexivity.
Qed.

Lemma ilike_activation_witness :
  Ilike.query (Sample.name_ilike {[ "search_music.type" := "name" ]})
  = Ok (Some (ilike (EAttr "Music" "name") "%None%")).
Proof.
  apply (proj2 (ilike_activation (Sample.name_ilike {[ "search_music.type" := "name" ]})));
    reflexivity.
Defined.

(** X5. [IlikeAlias.__query__] never raises and gives a predicate exactly
    when a non-empty word came and the type parameter names its alias; the
    pattern then holds that word. *)
Theorem ilike_alias_activation (f : IlikeAlias.t) :
  let name := create_search_name (IlikeAlias.identifier f) in
  let args := IlikeAlias.request_args f in
  let alias := IlikeAlias.alias_name (IlikeAlias.alias_attr f) in
  exists q, IlikeAlias.query f = Ok q
    /\ (forall p, q = Some p <->
          exists v, args !! word name = Some v /\ v <> ""
                    /\ args !! type name = Some alias
                    /\ p = ilike (EAlias alias) ("%" +:+ v +:+ "%")).
Proof.
  cbn zeta. unfold IlikeAlias.query, Py.get.
  destruct (IlikeAlias.request_args f !! word _) as [v|] eqn:Hw; cbn [truthy_opt].
  - destruct (String.eqb_spec v "") as [->|Hv]; cbn [negb andb].
    + eexists. split; [reflexivity|]. intros p. split; [discriminate|].
      intros (v & [= <-] & Hv & _). contradiction.
    + destruct (IlikeAlias.request_args f !! type _) as [t|] eqn:Ht.
      * destruct (decide (t = IlikeAlias.alias_name (IlikeAlias.alias_attr f)))
          as [->|Hne].
        -- rewrite bool_decide_eq_true_2 by reflexivity.
           eexists. split; [reflexivity|]. intros p. split.
           ++ intros [= <-]. exists v. repeat split. exact Hv.
           ++ intros (v' & [= <-] & _ & _ & ->). reflexivity.
        -- rewrite bool_decide_eq_false_2 by (intros [= E]; contradiction).
           eexists. split; [reflexivity|]. intros p. split; [discriminate|].
           intros (_ & _ & _ & [= E] & _). contradiction.
      * rewrite bool_decide_eq_false_2 by discriminate.
        eexists. split; [reflexivity|]. intros p. split; [discriminate|].
        intros (_ & _ & _ & E & _). discriminate E.
  - eexists. split; [reflexivity|]. intros p. split; [discriminate|].
    intros (v & E & _). discriminate E.
Qed.

Lemma ilike_alias_activation_witness :
  IlikeAlias.query
    (IlikeAlias.init "music" {| IlikeAlias.alias_name := "name" |}
       {[ "search_music.type" := "name"; "search_music.word" := "blu" ]})
  = Ok (Some (ilike (EAlias "name") "%blu%"))
  /\ IlikeAlias.query
       (IlikeAlias.init "music" {| IlikeAlias.alias_name := "name" |}
          {[ "search_music.type" := "name" ]})
     = Ok None.
Proof.
  split.
  - destruct (ilike_alias_activation
                (IlikeAlias.init "music" {| IlikeAlias.alias_name := "name" |}
                   {[ "search_music.type" := "name"; "search_music.word" := "blu" ]}))
      as (q & -> & Hq).
    f_equal. apply Hq. exists "blu". repeat split. discriminate.
  - destruct (ilike_alias_activation
                (IlikeAlias.init "music" {| IlikeAlias.alias_name := "name" |}
                   {[ "search_music.type" := "name" ]}))
      as (q & -> & Hq).
    f_equal. destruct q as [p|]; [|reflexivity].
    destruct (proj1 (Hq p) eq_refl) as (v & Hv & _). discriminate Hv.
Defined.



(** X30. With [int] as the type, [EqualAlias.__query__] always returns:
    its guard lets only a non-empty word reach the coercion, which then
    either gives the integer to compare with or raises the [ValueError] that
    becomes the always-false predicate. *)
Theorem equal_alias_int_returns (identifier : string) (alias_attr : IlikeAlias.alias)
    (request_args : gmap string string) :
  exists q,
    EqualAlias.query (EqualAlias.init identifier alias_attr int_type request_args) = Ok q
    /\ (q = None \/ q = Some false_
        \/ exists z, q = Some (equals (EAlias (IlikeAlias.alias_name alias_attr)) (PyInt z))).
Proof.
  unfold EqualAlias.query, EqualAlias.init, IlikeAlias.init, Py.get.
  cbn [EqualAlias.base EqualAlias.type_ IlikeAlias.identifier IlikeAlias.request_args
       IlikeAlias.alias_attr].
  destruct (request_args !! word (create_search_name identifier)) as [v|];
    [|eexists; split; [reflexivity|auto]].
  destruct (truthy_opt (Some v) && _); [|eexists; split; [reflexivity|auto]].
  cbn [opt_to_val].
  destruct (int_type_of_string v) as [H|(z & H)]; rewrite H;
    eexists; (split; [reflexivity|eauto]).
Qed.

(** X7. Away from the two sentinels, [NullSelectableSelectFilter] is
    [SelectFilter]: same predicate, same failure. *)
Theorem null_selectable_elsewhere (f : SelectFilter.t) :
  let s := Py.get (SelectFilter.request_args f)
             ("select." +:+ SelectFilter.attribute_name f) (SelectFilter.default f) in
  s <> Some "null" -> s <> Some "not-null" ->
  NullSelectableSelectFilter.query f = SelectFilter.query f.
Proof.
  cbn zeta. intros Hnull Hnot. unfold NullSelectableSelectFilter.query.
  unfold NullSelectableSelectFilter.NULL, NullSelectableSelectFilter.NOT_NULL.
  rewrite !bool_decide_eq_false_2 by assumption.
  destruct (SelectFilter.query f); reflexivity.
Qed.

Lemma null_selectable_elsewhere_witness :
  NullSelectableSelectFilter.query
    (Sample.genre_filter Sample.nullable_genres {[ "select.genre" := "rock" ]} None)
  = Ok (Some (equals (EAttr "Music" "genre") (PyStr "rock"))).
Proof.
  rewrite null_selectable_elsewhere; [reflexivity| |]; discriminate.
Defined.

(** X8. An exception in a search filter of a column leaves
    [IlikeSet.__query__]: the set raises what the first failing instance of
    [Ilike] raises, the filters before it having evaluated. *)
Theorem ilike_set_raises (w : World) (self : IlikeSet.t) (pre post : list Filter)
    (f : ilike_instance) (e : exn) :
  all_filters w = pre ++ FIlike f :: post ->
  all_evaluate w pre ->
  ilike_instance_query f = Raise e ->
  IlikeSet.query w self = Raise e.
Proof.
  unfold all_filters, IlikeSet.query, all_evaluate.
  generalize (@nil pred) as filter_.
  revert pre. induction (_columns (table w)) as [|column columns IH];
    intros pre filter_ Hall Hpre Hf.
  - destruct pre; discriminate Hall.
  - cbn [flat_map] in Hall. cbn [IlikeSet.query_columns].
    assert (Hhere : forall fs acc rest pre',
               fs ++ rest = pre' ++ FIlike f :: post ->
               Forall (fun g => exists q, filter_query w g = Ok q) pre' ->
               (exists acc', IlikeSet.query_filters fs acc = Ok acc'
                  /\ exists pre'', rest = pre'' ++ FIlike f :: post
                       /\ Forall (fun g => exists q, filter_query w g = Ok q) pre'')
               \/ IlikeSet.query_filters fs acc = Raise e).
    { clear IH Hall Hpre. intros fs. induction fs as [|g fs IHfs]; intros acc rest pre' Heq Hp.
      - left. exists acc. split; [reflexivity|]. exists pre'. split; assumption.
      - destruct pre' as [|g' pre'].
        + simpl in Heq. injection Heq as -> _. right. simpl. rewrite Hf. reflexivity.
        + simpl in Heq. injection Heq as -> Heq.
          apply Forall_cons in Hp as [(q & Hq) Hp].
          destruct g' as [g'|g'|g'|g']; simpl;
            try (apply (IHfs _ _ _ Heq Hp)).
          simpl in Hq. rewrite Hq. simpl.
          destruct q; apply (IHfs _ _ _ Heq Hp). }
    destruct (Hhere _ filter_ _ _ Hall Hpre) as [(acc1 & Hacc & pre1 & Hrest & Hp1)|Hraise].
    2: { rewrite Hraise. reflexivity. }
    rewrite Hacc. simpl.
    specialize (IH pre1 acc1 Hrest Hp1 Hf).
    destruct (IlikeSet.query_columns w columns acc1) as [l|e']; simpl in IH |- *.
    + destruct l; discriminate IH.
    + exact IH.
Qed.

Lemma ilike_set_raises_witness :
  let args : gmap string string := {[ "search_music.type" := "id" ]} in
  IlikeSet.query
    (Sample.world [FIlike (AnIlike (Sample.name_ilike args));
                   FIlike (AnEqual (Sample.id_equal args))] [] Sample.two_records)
    Sample.search_set
  = Raise TypeError.
Proof.
  cbn zeta.
  apply (ilike_set_raises
           (Sample.world [FIlike (AnIlike (Sample.name_ilike {[ "search_music.type" := "id" ]}));
                          FIlike (AnEqual (Sample.id_equal {[ "search_music.type" := "id" ]}))]
              [] Sample.two_records)
           Sample.search_set
           [FIlike (AnIlike (Sample.name_ilike {[ "search_music.type" := "id" ]}))] []
           (AnEqual (Sample.id_equal {[ "search_music.type" := "id" ]})) TypeError).
  - reflexivity.
  - repeat constructor. eexists. reflexivity.
  - reflexivity.
Defined.

(** *** [dodotable.schema.Pager] *)

Lemma pages_numbers (self : Pager.t) (ps : list Pager.Page.t) :
  Pager.pages self = Ok ps ->
  Pager.limit self <> 0%Z /\ Pager.padding self <> 0%Z
  /\ numbers ps
     = Pager.range (window_start self) (window_start self + Pager.padding self - 1)
         (Pager.page_count self) 1
  /\ Forall (fun p => Pager.Page.limit p = Pager.limit self
                      /\ Pager.Page.offset p
                         = (Pager.limit self * (Pager.Page.number p - 1))%Z
                      /\ Pager.Page.selected p
                         = (Pager.Page.number p =? Pager.current_page_count self)%Z) ps.
Proof.
  unfold Pager.pages.
  destruct (Z.eqb_spec (Pager.limit self) 0) as [|Hl]; [discriminate|].
  destruct (Z.eqb_spec (Pager.padding self) 0) as [|Hp]; [discriminate|].
  intros [= <-]. split; [exact Hl|]. split; [exact Hp|]. split.
  - unfold numbers. rewrite map_map. cbn [Pager.Page.number]. apply map_id.
  - apply List.Forall_forall. intros p Hin. apply in_map_iff in Hin as (n & <- & _).
    repeat split.
Qed.



Lemma candidates_S (start : Z) (n : nat) :
  candidates start (S n) = start :: candidates (start + 1) n.
Proof.
  unfold candidates. cbn [seq map]. rewrite Z.add_0_r, <- seq_shift, map_map.
  f_equal. apply map_ext. intros k. lia.
Qed.

Lemma candidates_sorted (start : Z) (n : nat) :
  StronglySorted Z.lt (candidates start n).
Proof.
  revert start. induction n as [|n IH]; intros start.
  - constructor.
  - rewrite candidates_S. constructor; [apply IH|].
    apply List.Forall_forall. intros x Hx. apply candidates_bound in Hx. lia.
Qed.

Lemma filter_sorted (p : Z -> bool) (l : list Z) :
  StronglySorted Z.lt l -> StronglySorted Z.lt (List.filter p l).
Proof.
  induction 1 as [|x l _ IH Hx]; simpl; [constructor|].
  destruct (p x); [|exact IH]. constructor; [exact IH|].
  apply List.Forall_forall. intros y Hy. apply filter_In in Hy as [Hy _].
  rewrite List.Forall_forall in Hx. apply Hx, Hy.
Qed.

Lemma window_start_sound (self : Pager.t) :
  pager_sound self -> (1 <= window_start self)%Z.
Proof.
  intros (Hl & Ho & Hp). unfold window_start, Pager.current_page_count.
  assert (0 <= Pager.offset self / Pager.limit self)%Z by (apply Z.div_pos; lia).
  assert (0 <= (Pager.offset self / Pager.limit self + 1 - 1) / Pager.padding self)%Z
    by (apply Z.div_pos; lia).
  lia.
Qed.

Lemma sorted_app (l1 l2 : list Z) :
  StronglySorted Z.lt l1 -> StronglySorted Z.lt l2 ->
  (forall x y, In x l1 -> In y l2 -> (x < y)%Z) ->
  StronglySorted Z.lt (l1 ++ l2).
Proof.
  intros H1 H2. induction H1 as [|x l1 _ IH Hx]; intros Hcross; simpl; [exact H2|].
  constructor.
  - apply IH. intros a b Ha Hb. apply Hcross; [right; exact Ha|exact Hb].
  - apply List.Forall_forall. intros y Hy. apply in_app_iff in Hy as [Hy|Hy].
    + rewrite List.Forall_forall in Hx. apply Hx, Hy.
    + apply Hcross; [left; reflexivity|exact Hy].
Qed.

Lemma sorted_NoDup (l : list Z) : StronglySorted Z.lt l -> List.NoDup l.
Proof.
  induction 1 as [|x l _ IH Hx]; constructor; [|exact IH].
  intros Hin. rewrite List.Forall_forall in Hx. specialize (Hx x Hin). lia.
Qed.

(** X10. For a pager with a positive limit, a positive padding and no
    negative offset, the page numbers of [pages] are strictly increasing: no
    page is listed twice. *)
Theorem pages_increasing (self : Pager.t) (ps : list Pager.Page.t) :
  pager_sound self ->
  Pager.pages self = Ok ps ->
  StronglySorted Z.lt (numbers ps) /\ List.NoDup (numbers ps).
Proof.
  intros Hsound Hps.
  pose proof (window_start_sound self Hsound) as Hstart.
  apply pages_numbers in Hps as (_ & _ & Hnum & _).
  assert (Hsorted : StronglySorted Z.lt (numbers ps)).
  { rewrite Hnum, range_spec. cbn zeta.
    set (start := window_start self) in *.
    set (n := Pager.range_turns start (start + Pager.padding self - 1)
                (Pager.page_count self)).
    apply sorted_app; [repeat constructor| |].
    - apply sorted_app; [apply filter_sorted, candidates_sorted| |].
      + destruct (start + Z.of_nat n <? Pager.page_count self)%Z; repeat constructor.
      + intros x y Hx Hy. apply filter_In in Hx as [Hx _].
        apply candidates_bound in Hx.
        destruct (Z.ltb_spec (start + Z.of_nat n) (Pager.page_count self)) as [Hlt|_];
          [|destruct Hy].
        destruct Hy as [<-|[]]. lia.
    - intros x y [<-|[]] Hy. apply in_app_iff in Hy as [Hy|Hy].
      + apply filter_In in Hy as [_ Hy]. lia.
      + destruct (Z.ltb_spec (start + Z.of_nat n) (Pager.page_count self)) as [Hlt|_];
          [|destruct Hy].
        destruct Hy as [<-|[]]. lia. }
  split; [exact Hsorted|apply sorted_NoDup, Hsorted].
Qed.

Lemma pages_increasing_witness :
  List.NoDup [1; 31; 32; 33; 34; 35; 36; 37; 38; 39; 40; 95]%Z.
Proof.
  refine (proj2 (pages_increasing
                   {| Pager.limit := 10; Pager.offset := 320; Pager.count := 950;
                      Pager.padding := 10 |} _ _ eq_refl)).
  unfold pager_sound. simpl. lia.
Defined.

(** X11. For such a pager every listed number lies between 1 and the
    number of pages (or is 1 when there is no page), and the list has at
    most [padding + 2] entries. *)
Theorem pages_bounded (self : Pager.t) (ps : list Pager.Page.t) :
  pager_sound self ->
  Pager.pages self = Ok ps ->
  Forall (fun n => 1 <= n <= Z.max 1 (Pager.page_count self))%Z (numbers ps)
  /\ (Z.of_nat (length ps) <= Pager.padding self + 2)%Z.
Proof.
  intros Hsound Hps.
  pose proof (window_start_sound self Hsound) as Hstart.
  destruct Hsound as (_ & _ & Hpad).
  apply pages_numbers in Hps as (_ & _ & Hnum & _).
  assert (Hlen : length ps = length (numbers ps)).
  { unfold numbers. rewrite length_map. reflexivity. }
  rewrite Hlen, Hnum, range_spec. cbn zeta.
  set (start := window_start self) in *.
  set (n := Pager.range_turns start (start + Pager.padding self - 1)
              (Pager.page_count self)).
  assert (Hn : (Z.of_nat n <= Pager.padding self)%Z).
  { subst n. unfold Pager.range_turns. lia. }
  assert (Hn' : (start + Z.of_nat n <= Z.max start (Pager.page_count self + 1))%Z).
  { subst n. unfold Pager.range_turns. lia. }
  split.
  - apply List.Forall_forall. intros x Hx. apply in_app_iff in Hx as [[<-|[]]|Hx]; [lia|].
    apply in_app_iff in Hx as [Hx|Hx].
    + apply filter_In in Hx as [Hx Hgt]. apply candidates_bound in Hx.
      subst n. unfold Pager.range_turns in Hx. lia.
    + destruct (Z.ltb_spec (start + Z.of_nat n) (Pager.page_count self)) as [Hlt|_];
        [|destruct Hx].
      destruct Hx as [<-|[]]. lia.
  - rewrite !length_app. cbn [length].
    pose proof (filter_length_le (fun x => (x >? 1)%Z) (candidates start n)) as Hf.
    assert (Hc : length (candidates start n) = n).
    { unfold candidates. rewrite length_map, length_seq. reflexivity. }
    destruct (start + Z.of_nat n <? Pager.page_count self)%Z; cbn [length]; lia.
Qed.

Lemma pages_bounded_witness :
  exists ps,
    Pager.pages {| Pager.limit := 10; Pager.offset := 320; Pager.count := 950;
                   Pager.padding := 10 |} = Ok ps
    /\ (Z.of_nat (length ps) <= 12)%Z.
Proof.
  eexists. split; [reflexivity|].
  refine (proj2 (pages_bounded
                   {| Pager.limit := 10; Pager.offset := 320; Pager.count := 950;
                      Pager.padding := 10 |} _ _ eq_refl)).
  unfold pager_sound. simpl. lia.
Defined.

(** X12. With the padding 10, a positive limit and no negative offset, the
    current page is listed whenever it exists (it is at most the number of
    pages), and in any list of pages the selected entries are exactly those
    with the number of the current page. *)
Theorem pages_selected (self : Pager.t) (ps : list Pager.Page.t) :
  Pager.pages self = Ok ps ->
  (forall p, In p ps ->
     (Pager.Page.selected p = true
      <-> Pager.Page.number p = Pager.current_page_count self))
  /\ (pager_sound self -> Pager.padding self = 10%Z ->
      (Pager.current_page_count self <= Pager.page_count self)%Z ->
      In (Pager.current_page_count self) (numbers ps)).
Proof.
  intros Hps. apply pages_numbers in Hps as (_ & _ & Hnum & Hall). split.
  - intros p Hp. rewrite List.Forall_forall in Hall.
    destruct (Hall p Hp) as (_ & _ & ->). apply Z.eqb_eq.
  - intros Hsound Hpad Hcur. rewrite Hnum, range_spec. cbn zeta.
    pose proof (window_start_sound self Hsound) as Hstart.
    destruct Hsound as (Hl & Ho & _).
    set (cur := Pager.current_page_count self) in *.
    assert (Hcur1 : (1 <= cur)%Z).
    { subst cur. unfold Pager.current_page_count.
      assert (0 <= Pager.offset self / Pager.limit self)%Z by (apply Z.div_pos; lia).
      lia. }
    assert (Hwin : (window_start self <= cur <= window_start self + 9)%Z).
    { unfold window_start. fold cur. rewrite Hpad.
      pose proof (Z.div_mod (cur - 1) 10 ltac:(lia)) as Hdm.
      pose proof (Z.mod_pos_bound (cur - 1) 10 ltac:(lia)) as Hmod. lia. }
    destruct (Z.eq_dec cur 1%Z) as [Heq|Hne]; [left; symmetry; exact Heq|].
    right. cbn [app]. apply in_app_iff. left. apply filter_In. split; [|lia].
    unfold candidates. apply in_map_iff.
    exists (Z.to_nat (cur - window_start self)). split; [lia|].
    apply in_seq. unfold Pager.range_turns. rewrite Hpad. lia.
Qed.

Lemma pages_selected_witness :
  In 33%Z [1; 31; 32; 33; 34; 35; 36; 37; 38; 39; 40; 95]%Z.
Proof.
  refine (proj2 (pages_selected
                   {| Pager.limit := 10; Pager.offset := 320; Pager.count := 950;
                      Pager.padding := 10 |} _ eq_refl) _ eq_refl _).
  - unfold pager_sound. simpl. lia.
  - vm_compute. discriminate.
Defined.

(** with another padding the window may leave out the current page: the
    block is counted in units of [padding] and starts at a multiple of 10 *)
Example pages_padding_5 :
  let self := {| Pager.limit := 10; Pager.offset := 60; Pager.count := 200;
                 Pager.padding := 5 |} in
  Pager.current_page_count self = 7%Z
  /\ numbers <$> Pager.pages self = Ok [1; 11; 12; 13; 14; 15; 20]%Z.
Proof. split; reflexivity. Qed.

(** X13. A page of the list leads back to itself: the pager built from the
    limit and the offset of the page has that page as its current page, and
    the offset is the one [from_page_number] gives for its number. *)
Theorem page_round_trip (self : Pager.t) (ps : list Pager.Page.t) (p : Pager.Page.t) :
  Pager.pages self = Ok ps ->
  In p ps ->
  Pager.current_page_count (pager_at self p) = Pager.Page.number p
  /\ Pager.Page.offset p
     = Pager.Page.offset (Pager.from_page_number self (Pager.Page.number p))
  /\ Pager.Page.limit p
     = Pager.Page.limit (Pager.from_page_number self (Pager.Page.number p)).
Proof.
  intros Hps Hp. apply pages_numbers in Hps as (Hl & _ & _ & Hall).
  rewrite List.Forall_forall in Hall. destruct (Hall p Hp) as (Hlim & Hoff & _).
  unfold Pager.current_page_count, pager_at, Pager.from_page_number.
  cbn [Pager.limit Pager.offset Pager.Page.offset Pager.Page.limit].
  rewrite Hlim, Hoff. split; [|split; [lia|reflexivity]].
  rewrite Z.mul_comm, Z.div_mul by exact Hl. lia.
Qed.

Lemma page_round_trip_witness :
  Pager.current_page_count
    {| Pager.limit := 10; Pager.offset := 940; Pager.count := 950; Pager.padding := 10 |}
  = 95%Z.
Proof.
  refine (proj1 (page_round_trip
                   {| Pager.limit := 10; Pager.offset := 320; Pager.count := 950;
                      Pager.padding := 10 |} _
                   {| Pager.Page.selected := false; Pager.Page.number := 95;
                      Pager.Page.limit := 10; Pager.Page.offset := 940 |}
                   eq_refl _)).
  simpl. auto 20.
Defined.

(** X14. [Pager.__init__] raises exactly when the first coercion that fails
    fails with something else than [ValueError], and then it raises that;
    with [int] this is the [TypeError] of an input that is neither a number
    nor a string. *)
Theorem pager_init_raises (limit offset count padding : PyVal) (e : exn) :
  Pager.init limit offset count padding = Raise e <->
  first_error [Py.int limit; Py.int offset; Py.int count; Py.int padding] = Some e
  /\ e = TypeError.
Proof.
  assert (Hint : forall v e', Py.int v = Raise e' -> e' = ValueError \/ e' = TypeError).
  { intros v e'. destruct v as [|b|z|s|l]; simpl; try discriminate.
    - intros [= <-]. auto.
    - destruct (parse_int s); [discriminate|]. intros [= <-]. auto.
    - intros [= <-]. auto. }
  unfold Pager.init. simpl.
  destruct (Py.int limit) as [l|e1] eqn:H1; simpl.
  2: { destruct (Hint _ _ H1) as [-> | ->].
       - split; [discriminate|]. intros [[= <-] H]. discriminate H.
       - split; [intros [= <-]; split; reflexivity|]. intros [_ ->]. reflexivity. }
  destruct (Py.int offset) as [o|e2] eqn:H2; simpl.
  2: { destruct (Hint _ _ H2) as [-> | ->].
       - split; [discriminate|]. intros [[= <-] H]. discriminate H.
       - split; [intros [= <-]; split; reflexivity|]. intros [_ ->]. reflexivity. }
  destruct (Py.int count) as [c|e3] eqn:H3; simpl.
  2: { destruct (Hint _ _ H3) as [-> | ->].
       - split; [discriminate|]. intros [[= <-] H]. discriminate H.
       - split; [intros [= <-]; split; reflexivity|]. intros [_ ->]. reflexivity. }
  destruct (Py.int padding) as [p|e4] eqn:H4; simpl.
  2: { destruct (Hint _ _ H4) as [-> | ->].
       - split; [discriminate|]. intros [[= <-] H]. discriminate H.
       - split; [intros [= <-]; split; reflexivity|]. intros [_ ->]. reflexivity. }
  split; [discriminate|]. intros [H _]. discriminate H.
Qed.

Lemma pager_init_raises_witness :
  Pager.init (PyStr "10") (PyTuple []) (PyStr "x") (PyInt 10) = Raise TypeError.
Proof.
  apply (pager_init_raises (PyStr "10") (PyTuple []) (PyStr "x") (PyInt 10) TypeError).
  split; reflexivity.
Defined.

(** *** [dodotable.schema.Row] *)

Lemma row_position (self : Row.t) (key : Z) :
  (Row.position self key = Raise IndexError
   /\ (key < - Row.len self \/ Row.len self <= key)%Z)
  \/ (exists i, Row.position self key = Ok i /\ i < length self
        /\ Z.of_nat i = (if key <? 0 then key + Row.len self else key)%Z
        /\ (- Row.len self <= key < Row.len self)%Z).
Proof.
  unfold Row.position, Row.len.
  destruct (Z.ltb_spec key 0) as [Hneg|Hpos].
  - destruct (Z.leb_spec 0 (key + Z.of_nat (length self))) as [H0|H0];
      destruct (Z.ltb_spec (key + Z.of_nat (length self)) (Z.of_nat (length self)))
        as [H1|H1]; cbn [andb]; try (left; split; [reflexivity|lia]).
    right. eexists. split; [reflexivity|]. repeat split; lia.
  - destruct (Z.leb_spec 0 key) as [H0|H0];
      destruct (Z.ltb_spec key (Z.of_nat (length self))) as [H1|H1];
      cbn [andb]; try (left; split; [reflexivity|lia]).
    right. eexists. split; [reflexivity|]. repeat split; lia.
Qed.

(** X15. [row[key]] raises [IndexError] exactly for a key outside
    [-len .. len-1], the empty row refusing every key; inside, the negative
    key [key - len] names the same cell as [key]. *)
Theorem row_getitem (self : Row.t) (key : Z) :
  (forall e, Row.getitem self key = Raise e <->
             (key < - Row.len self \/ Row.len self <= key)%Z /\ e = IndexError)
  /\ ((0 <= key < Row.len self)%Z ->
      Row.getitem self (key - Row.len self) = Row.getitem self key
      /\ exists c, Row.getitem self key = Ok c /\ self !! Z.to_nat key = Some c).
Proof.
  split.
  - intros e. unfold Row.getitem.
    destruct (row_position self key) as [[-> Hout]|(i & -> & Hi & _ & Hin)];
      cbn [mbind result_bind Py.bind].
    + split; [intros [= <-]; auto|]. intros [_ ->]. reflexivity.
    + destruct (lookup_lt_is_Some_2 self i Hi) as [c ->].
      split; [discriminate|]. intros [H _]. lia.
  - intros Hkey. unfold Row.getitem, Row.position.
    destruct (Z.ltb_spec (key - Row.len self) 0) as [_|H]; [|lia].
    destruct (Z.ltb_spec key 0) as [H|_]; [lia|].
    replace (key - Row.len self + Row.len self)%Z with key by lia.
    split; [reflexivity|].
    destruct (Z.leb_spec 0 key) as [_|H]; [|lia].
    destruct (Z.ltb_spec key (Row.len self)) as [_|H]; [|lia].
    cbn [andb mbind result_bind Py.bind].
    assert (Hi : Z.to_nat key < length self) by (unfold Row.len in Hkey; lia).
    destruct (lookup_lt_is_Some_2 self _ Hi) as [c Hc]. rewrite Hc.
    exists c. split; reflexivity.
Qed.

Lemma row_getitem_witness :
  let a := Cell.LinkedCell 0 0 (Obj (PyStr "a") []) "/a" in
  let b := Cell.LinkedCell 1 0 (Obj (PyStr "b") []) "/b" in
  Row.getitem [a; b] (-1) = Ok b /\ Row.getitem [a; b] 2 = Raise IndexError.
Proof.
  intros a b. split.
  - assert (Hin : (0 <= 1 < Row.len [a; b])%Z) by (unfold Row.len; simpl; lia).
    transitivity (Row.getitem [a; b] 1); [|reflexivity].
    exact (proj1 (proj2 (row_getitem [a; b] 1) Hin)).
  - apply (proj1 (row_getitem [a; b] 2)).
    split; [right; unfold Row.len; simpl; lia|reflexivity].
Defined.

(** X16. [row[key] = value] keeps the length, puts the value where
    [row[key]] reads it, and leaves every other position as it was. *)
Theorem row_setitem (self r : Row.t) (key : Z) (value : Cell.t) :
  Row.setitem self key value = Ok r ->
  Row.getitem r key = Ok value
  /\ Row.len r = Row.len self
  /\ (forall key', Row.position self key' <> Row.position self key ->
        Row.getitem r key' = Row.getitem self key').
Proof.
  unfold Row.setitem. destruct (Row.position self key) as [i|e] eqn:Hpos; [|discriminate].
  cbn [mbind result_bind Py.bind]. intros [= <-].
  assert (Hlen : Row.len (<[i := value]> self) = Row.len self).
  { unfold Row.len. rewrite length_insert. reflexivity. }
  assert (Hposr : forall k, Row.position (<[i := value]> self) k = Row.position self k).
  { intros k. unfold Row.position. rewrite Hlen. reflexivity. }
  split; [|split; [exact Hlen|]].
  - unfold Row.getitem. rewrite Hposr, Hpos. cbn [mbind result_bind Py.bind].
    destruct (row_position self key) as [[H _]|(j & H & Hj & _)]; rewrite H in Hpos;
      [discriminate|]. injection Hpos as ->.
    rewrite list_lookup_insert_eq by exact Hj. reflexivity.
  - intros key' Hne. unfold Row.getitem. rewrite Hposr.
    destruct (Row.position self key') as [j|e]; [|reflexivity].
    cbn [mbind result_bind Py.bind].
    rewrite list_lookup_insert_ne; [reflexivity|]. intros ->. contradiction.
Qed.

Lemma row_setitem_witness :
  let a := Cell.LinkedCell 0 0 (Obj (PyStr "a") []) "/a" in
  let b := Cell.LinkedCell 1 0 (Obj (PyStr "b") []) "/b" in
  Row.getitem [a; b] (-2) = Ok a /\ Row.getitem [b; b] 0 = Ok b.
Proof.
  cbn zeta. split; [reflexivity|].
  apply (proj1 (row_setitem [Cell.LinkedCell 0 0 (Obj (PyStr "a") []) "/a"; _]
                  [_; _] 0 _ eq_refl)).
Defined.

Lemma row_insert_length (self : Row.t) (index : Z) (c : Cell.t) :
  Row.len (Row.insert self index c) = (Row.len self + 1)%Z.
Proof.
  unfold Row.insert, Row.len. rewrite length_app. cbn [length].
  rewrite length_take, length_drop. lia.
Qed.

(** X17. [row.append(cell)] puts the cell at the end: the row is the old
    one followed by the cell, [row[-1]] reads it back, and the length grows
    by one, as it does for [insert] at any index. *)
Theorem row_append (self : Row.t) (cell : Cell.t) :
  Row.append self cell = self ++ [cell]
  /\ Row.getitem (Row.append self cell) (-1) = Ok cell
  /\ Row.len (Row.append self cell) = (Row.len self + 1)%Z
  /\ (forall index c, Row.len (Row.insert self index c) = (Row.len self + 1)%Z).
Proof.
  assert (Happ : Row.append self cell = self ++ [cell]).
  { unfold Row.append, Row.insert, Row.len.
    destruct (Z.ltb_spec (Z.of_nat (length self)) 0) as [H|_]; [lia|].
    rewrite Z.min_id, Nat2Z.id, firstn_all, drop_all. reflexivity. }
  split; [exact Happ|]. split; [|split].
  - rewrite Happ. unfold Row.getitem, Row.position, Row.len.
    rewrite length_app. cbn [length].
    destruct (Z.ltb_spec (-1) 0) as [_|H]; [|lia].
    replace (-1 + Z.of_nat (length self + 1))%Z with (Z.of_nat (length self)) by lia.
    destruct (Z.leb_spec 0 (Z.of_nat (length self))) as [_|H]; [|lia].
    destruct (Z.ltb_spec (Z.of_nat (length self)) (Z.of_nat (length self + 1)))
      as [_|H]; [|lia].
    cbn [andb mbind result_bind Py.bind].
    rewrite Nat2Z.id, list_lookup_middle by reflexivity. reflexivity.
  - apply row_insert_length.
  - intros index c. apply row_insert_length.
Qed.

(** X18. Inserting at an index between 0 and the length and deleting at the
    same index gives the row back, and in between the index reads the
    inserted cell. *)
Theorem row_insert_delitem (self : Row.t) (index : Z) (c : Cell.t) :
  (0 <= index <= Row.len self)%Z ->
  Row.getitem (Row.insert self index c) index = Ok c
  /\ Row.delitem (Row.insert self index c) index = Ok self.
Proof.
  intros Hidx.
  assert (Hins : Row.insert self index c
                 = take (Z.to_nat index) self ++ c :: drop (Z.to_nat index) self).
  { unfold Row.insert. destruct (Z.ltb_spec index 0) as [H|_]; [lia|].
    rewrite Z.min_l by lia. reflexivity. }
  assert (Hlen : length (take (Z.to_nat index) self) = Z.to_nat index).
  { rewrite length_take. unfold Row.len in Hidx. lia. }
  assert (Hpos : Row.position (Row.insert self index c) index = Ok (Z.to_nat index)).
  { unfold Row.position. rewrite row_insert_length.
    destruct (Z.ltb_spec index 0) as [H|_]; [lia|].
    destruct (Z.leb_spec 0 index) as [_|H]; [|lia].
    destruct (Z.ltb_spec index (Row.len self + 1)) as [_|H]; [|lia]. reflexivity. }
  unfold Row.getitem, Row.delitem. rewrite Hpos. cbn [mbind result_bind Py.bind].
  rewrite Hins. split.
  - rewrite list_lookup_middle by (symmetry; exact Hlen). reflexivity.
  - rewrite <- Hlen at 1. rewrite delete_middle, take_drop. reflexivity.
Qed.

Lemma row_insert_delitem_witness :
  let a := Cell.LinkedCell 0 0 (Obj (PyStr "a") []) "/a" in
  let b := Cell.LinkedCell 1 0 (Obj (PyStr "b") []) "/b" in
  Row.delitem (Row.insert [a; b] 1 b) 1 = Ok [a; b].
Proof.
  intros a b. apply row_insert_delitem. unfold Row.len. simpl. lia.
Defined.

(** *** [dodotable.schema.Table] *)

(** X19. [Table.__init__] fails exactly when no session is passed and the
    environment gives none, be it that [get_session] returns [None] or that
    it raises: the [finally] clause replaces whatever it raised by
    [ValueError].  A table that is built has no filter, no row, and the pager
    of an empty table. *)
Theorem table_init (cls : source) (label unit_label : string)
    (columns : option (list loc)) (sqlalchemy_session : option Session)
    (environment_session : result (option Session)) :
  (forall e,
      Table.init cls label unit_label columns sqlalchemy_session environment_session
      = Raise e <->
      sqlalchemy_session = None
      /\ (environment_session = Ok None \/ raises environment_session)
      /\ e = ValueError)
  /\ (forall t,
        Table.init cls label unit_label columns sqlalchemy_session environment_session
        = Ok t ->
        _filters t = [] /\ rows t = []
        /\ _columns t = match columns with None => [] | Some l => l end
        /\ pager t = {| Pager.limit := 1; Pager.offset := 0; Pager.count := 0;
                        Pager.padding := 10 |}
        /\ (sqlalchemy_session = Some (session t)
            \/ sqlalchemy_session = None /\ environment_session = Ok (Some (session t)))).
Proof.
  unfold Table.init, raises. split.
  - intros e. destruct sqlalchemy_session as [s|].
    + split; [discriminate|]. intros ([=] & _).
    + destruct environment_session as [[s|]|e'].
      * split; [discriminate|]. intros (_ & [H|(e' & H)] & _); discriminate H.
      * split; [intros [= <-]; auto|]. intros (_ & _ & ->). reflexivity.
      * split; [intros [= <-]; eauto|]. intros (_ & _ & ->). reflexivity.
  - intros t. destruct sqlalchemy_session as [s|].
    + intros [= <-]. cbn. auto 10.
    + destruct environment_session as [[s|]|e']; try discriminate.
      intros [= <-]. cbn. auto 10.
Qed.

Lemma table_init_witness :
  Table.init (Mapped Sample.Music) "Music" "row" None None
    (Raise (OtherError "NotImplementedError"))
  = Raise ValueError.
Proof.
  apply (proj1 (table_init (Mapped Sample.Music) "Music" "row" None None
                  (Raise (OtherError "NotImplementedError")))).
  split; [reflexivity|]. split; [|reflexivity]. right. eexists. reflexivity.
Defined.

Lemma fold_filter_fields (ps : list pred) (q : Query) :
  q_filter (fold_left Sql.filter ps q) = q_filter q ++ ps
  /\ q_entity (fold_left Sql.filter ps q) = q_entity q
  /\ q_order_by (fold_left Sql.filter ps q) = q_order_by q
  /\ q_offset (fold_left Sql.filter ps q) = q_offset q
  /\ q_limit (fold_left Sql.filter ps q) = q_limit q.
Proof.
  revert q. induction ps as [|p ps IH]; intros q; simpl.
  - rewrite app_nil_r. repeat split.
  - destruct (IH (Sql.filter q p)) as (-> & -> & -> & -> & ->).
    simpl. rewrite <- app_assoc. repeat split.
Qed.

Lemma build_base_query_loop_spec (w : World) (fs : list Filter) (q : Query) :
  all_evaluate w fs ->
  Table.build_base_query_loop w fs q
  = Ok (fold_left Sql.filter (flat_map (contributed w) fs) q).
Proof.
  intros H. revert q. induction H as [|f fs (r & Hr) _ IH]; intros q; simpl.
  - reflexivity.
  - unfold contributed at 1. rewrite Hr. simpl. rewrite IH.
    destruct r; reflexivity.
Qed.

(** X20. When every filter of the table evaluates, the base query is the
    query over the source with the predicates of the filters added to its
    conditions, in the order in which the filters were added; a filter
    without predicate adds nothing, and ordering and slice are untouched. *)
Theorem build_base_query_conjunction (w : World) :
  all_evaluate w (_filters (table w)) ->
  exists base,
    Table.build_base_query w = Ok base
    /\ q_filter base
       = q_filter (source_query w) ++ flat_map (contributed w) (_filters (table w))
    /\ q_entity base = q_entity (source_query w)
    /\ q_order_by base = q_order_by (source_query w)
    /\ q_offset base = q_offset (source_query w)
    /\ q_limit base = q_limit (source_query w).
Proof.
  intros H. unfold Table.build_base_query.
  fold (source_query w). rewrite (build_base_query_loop_spec _ _ _ H).
  eexists. split; [reflexivity|]. apply fold_filter_fields.
Qed.

Lemma build_base_query_conjunction_witness :
  let args : gmap string string :=
    {[ "select.genre" := "rock"; "search_music.type" := "name";
       "search_music.word" := "blu" ]} in
  exists base,
    Table.build_base_query
      (Sample.world [FIlike (AnIlike (Sample.name_ilike args))]
         [FSelect (ASelectFilter (Sample.genre_filter Sample.genres args None));
          FLimit {| Limit.request_args := args; Limit.arg_type_name := "limit_music" |};
          FIlikeSet Sample.search_set]
         Sample.two_records) = Ok base
    /\ q_filter base = [equals (EAttr "Music" "genre") (PyStr "rock");
                        or_ [ilike (EAttr "Music" "name") "%blu%"]].
Proof.
  cbn zeta.
  edestruct build_base_query_conjunction as (base & Hbase & Hfilter & _);
    [|exists base; split; [exact Hbase|rewrite Hfilter; reflexivity]].
  repeat constructor; eexists; reflexivity.
Defined.

Lemma build_base_query_loop_app (w : World) (fs : list Filter) (f : Filter) (q : Query) :
  Table.build_base_query_loop w (fs ++ [f]) q
  = (base ← Table.build_base_query_loop w fs q;
     r ← filter_query w f;
     Ok (match r with Some p => Sql.filter base p | None => base end)).
Proof.
  revert q. induction fs as [|g fs IH]; intros q; simpl.
  - destruct (filter_query w f) as [[p|]|e]; reflexivity.
  - destruct (filter_query w g) as [r|e]; simpl; [apply IH|reflexivity].
Qed.

(** X21. [add_filter] conjoins: the base query after adding a filter is the
    base query before with the predicate of the new filter as one more
    condition, or unchanged if the filter gives none; it fails if the query
    before or the new filter fails. *)
Theorem add_filter_conjoins (w : World) (f : Filter) :
  Table.build_base_query (snd (Table.add_filter f w))
  = (base ← Table.build_base_query w;
     r ← filter_query w f;
     Ok (match r with Some p => Sql.filter base p | None => base end)).
Proof.
  unfold Table.add_filter, Table.update_table. cbn [snd].
  unfold Table.build_base_query at 1. cbn [table cls Table.set_filters _filters].
  rewrite (build_base_query_loop_same w); [|split; reflexivity].
  rewrite build_base_query_loop_app. reflexivity.
Qed.

(** *** Ordering *)

Lemma order_loop_spec (w : World) (columns : list loc) (order : list order_term) :
  Table.order_loop w columns order = order ++ flat_map (order_term_of w) columns.
Proof.
  revert order. induction columns as [|column columns IH]; intros order; simpl.
  - rewrite app_nil_r. reflexivity.
  - unfold order_term_of at 1.
    destruct (Column.order_by (column_at w column)) as [d|]; rewrite IH.
    + rewrite <- app_assoc. reflexivity.
    + reflexivity.
Qed.

(** X22. When a visible column has a direction, [_order_queries] gives one
    term for each visible column that has one, in the order of the columns
    and with the direction of the column, takes nothing from a hidden
    column, and changes no object. *)
Theorem order_queries_explicit (w : World) :
  flat_map (order_term_of w) (Table.columns w) <> [] ->
  Table._order_queries w = (Ok (flat_map (order_term_of w) (Table.columns w)), w)
  /\ (forall base, Table.build_base_query w = Ok base ->
        Table.query w
        = (Ok (Sql.order_by base (flat_map (order_term_of w) (Table.columns w))), w)).
Proof.
  intros Hne.
  assert (Horder : Table._order_queries w
                   = (Ok (flat_map (order_term_of w) (Table.columns w)), w)).
  { unfold Table._order_queries, bindM, read. rewrite order_loop_spec. cbn [app].
    destruct (flat_map (order_term_of w) (Table.columns w)); [contradiction|reflexivity]. }
  split; [exact Horder|].
  intros base Hbase. unfold Table.query, bindM, read, lift. rewrite Hbase, Horder.
  reflexivity.
Qed.

Lemma order_queries_explicit_witness :
  let w := {| column_at := fun l =>
                match l with
                | 0 => Column.init Column.Hidden "ID" "id" (PyStr "id.asc") None
                         Sample.plain true true false []
                | 1 => Column.init Column.Plain "Name" "name" (PyStr "genre.desc,name.asc")
                         None Sample.plain true true false []
                | _ => Column.init Column.Plain "Genre" "genre" (PyStr "genre.desc,name.asc")
                         None Sample.plain true true false []
                end;
              table := Sample.music_table [] Sample.two_records;
              stdout := [] |} in
  fst (Table._order_queries w)
  = Ok [asc (EAttr "Music" "name"); desc (EAttr "Music" "genre")].
Proof.
  intros w. rewrite (proj1 (order_queries_explicit w ltac:(discriminate))). reflexivity.
Defined.

(** what [_order_queries] may change: the direction of one column, to
    descending *)
Lemma order_queries_frame (w w' : World) (r : result (list order_term)) :
  Table._order_queries w = (r, w') ->
  table w' = table w /\ stdout w' = stdout w
  /\ forall l, column_at w' l = column_at w l
               \/ column_at w' l
                  = Column.set_order_by (Some Order.DESCENDANT) (column_at w l).
Proof.
  unfold Table._order_queries, bindM, read.
  destruct (Table.order_loop w (Table.columns w) []).
  - destruct (Table.columns w) as [|column0 rest].
    + intros [= _ <-]. auto.
    + unfold Table.update_column, ret. intros [= _ <-]. cbn.
      split; [reflexivity|]. split; [reflexivity|].
      intros l. destruct (Nat.eqb_spec l column0) as [->|_]; auto.
  - unfold ret. intros [= _ <-]. auto.
Qed.

Lemma query_frame (w w' : World) (r : result Query) :
  Table.query w = (r, w') ->
  table w' = table w /\ stdout w' = stdout w
  /\ forall l, column_at w' l = column_at w l
               \/ column_at w' l
                  = Column.set_order_by (Some Order.DESCENDANT) (column_at w l).
Proof.
  unfold Table.query, bindM, read, lift.
  destruct (Table.build_base_query w) as [base|e]; [|intros [= _ <-]; auto].
  destruct (Table._order_queries w) as [[order|e] w1] eqn:Horder;
    intros [= _ <-]; apply (order_queries_frame _ _ _ Horder).
Qed.

(** X23. Resolving the order changes nothing that the filters or the
    visibility depend on: after [_order_queries] the table object is the
    same, every column has the same attribute, filters and visibility, and
    the base query and the count are what they were. *)
Theorem order_queries_keeps_base_query (w w' : World) (r : result (list order_term)) :
  Table._order_queries w = (r, w') ->
  table w' = table w
  /\ (forall l, Column.attr (column_at w' l) = Column.attr (column_at w l)
                /\ Column.filters (column_at w' l) = Column.filters (column_at w l)
                /\ Column.visible (column_at w' l) = Column.visible (column_at w l))
  /\ Table.columns w' = Table.columns w
  /\ Table.build_base_query w' = Table.build_base_query w
  /\ Table.count w' = Table.count w.
Proof.
  intros H. apply order_queries_frame in H as (Ht & _ & Hc).
  assert (Hcol : forall l, Column.attr (column_at w' l) = Column.attr (column_at w l)
                           /\ Column.filters (column_at w' l) = Column.filters (column_at w l)
                           /\ Column.visible (column_at w' l) = Column.visible (column_at w l)).
  { intros l. destruct (Hc l) as [-> | ->]; repeat split. }
  assert (Hbase : Table.build_base_query w' = Table.build_base_query w).
  { apply build_base_query_same.
    - split; [rewrite Ht; reflexivity|]. intros l. apply Hcol.
    - rewrite Ht. reflexivity.
    - rewrite Ht. reflexivity. }
  split; [exact Ht|]. split; [exact Hcol|]. split; [|split; [exact Hbase|]].
  - unfold Table.columns. rewrite Ht. apply filter_ext. intros l. apply Hcol.
  - unfold Table.count. rewrite Hbase, Ht. reflexivity.
Qed.

Lemma order_queries_keeps_base_query_witness :
  let w := Sample.world [] [] Sample.two_records in
  Table.count (snd (Table._order_queries w)) = Table.count w.
Proof.
  intros w.
  apply (order_queries_keeps_base_query w _ (fst (Table._order_queries w))).
  destruct (Table._order_queries w). reflexivity.
Defined.

Lemma order_term_fallback (w : World) (column0 : loc) :
  Order.query (Order.init (cls (table w)) (Column.attr (column_at w column0)) None)
  = Order.query (Order.init (cls (table w)) (Column.attr (column_at w column0))
                   (Some Order.DESCENDANT)).
Proof. reflexivity. Qed.

Lemma flat_map_nil {A B} (f : A -> list B) (l : list A) :
  flat_map f l = [] -> forall x, In x l -> f x = [].
Proof.
  induction l as [|a l IH]; simpl; [contradiction|].
  intros H x [<-|Hx].
  - destruct (f a); [reflexivity|discriminate H].
  - apply IH; [|exact Hx]. destruct (f a); [exact H|discriminate H].
Qed.

Lemma flat_map_all_nil {A B} (f : A -> list B) (l : list A) :
  (forall x, In x l -> f x = []) -> flat_map f l = [].
Proof.
  induction l as [|a l IH]; intros H; simpl; [reflexivity|].
  rewrite (H a) by (left; reflexivity). apply IH. intros x Hx. apply H. right. exact Hx.
Qed.

(** X24. Resolving the order twice gives the same terms, and the second
    time changes nothing: the fallback leaves the table as if descending
    order on its first visible column had been asked for.  The visible
    columns are distinct objects. *)
Theorem order_queries_stable (w w' : World) (order : list order_term) :
  List.NoDup (Table.columns w) ->
  Table._order_queries w = (Ok order, w') ->
  Table._order_queries w' = (Ok order, w').
Proof.
  intros Hnodup H.
  pose proof H as Hrun.
  unfold Table._order_queries, bindM, read in H.
  rewrite order_loop_spec in H. cbn [app] in H.
  destruct (flat_map (order_term_of w) (Table.columns w)) as [|t ts] eqn:Hfm.
  2: { unfold ret in H. injection H as <- <-. exact Hrun. }
  destruct (Table.columns w) as [|column0 rest] eqn:Hcols; [discriminate H|].
  unfold Table.update_column, ret in H. cbn [app] in H.
  injection H as Horder Hw. subst order.
  assert (Hcols' : Table.columns w' = column0 :: rest).
  { rewrite <- Hw, columns_after_order_by. exact Hcols. }
  assert (Htable : table w' = table w) by (rewrite <- Hw; reflexivity).
  assert (H0 : column_at w' column0
               = Column.set_order_by (Some Order.DESCENDANT) (column_at w column0)).
  { rewrite <- Hw. cbn. rewrite Nat.eqb_refl. reflexivity. }
  assert (Hother : forall l, l <> column0 -> column_at w' l = column_at w l).
  { intros l Hne. rewrite <- Hw. cbn.
    destruct (Nat.eqb_spec l column0); [contradiction|reflexivity]. }
  assert (Hrest : flat_map (order_term_of w') rest = []).
  { apply flat_map_all_nil. intros l Hl.
    assert (Hne : l <> column0).
    { intros ->. apply NoDup_cons_iff in Hnodup as [Hnot _]. contradiction. }
    unfold order_term_of. rewrite (Hother l Hne), Htable.
    apply (flat_map_nil _ _ Hfm l). right. exact Hl. }
  unfold Table._order_queries, bindM, read.
  rewrite order_loop_spec, Hcols'. cbn [app flat_map]. rewrite Hrest, app_nil_r.
  unfold order_term_of. rewrite H0, Htable. reflexivity.
Qed.

Lemma order_queries_stable_witness :
  let w := Sample.world [] [] Sample.two_records in
  fst (Table._order_queries (snd (Table._order_queries w)))
  = Ok [desc (EAttr "Music" "name")].
Proof.
  intros w.
  rewrite (order_queries_stable w (snd (Table._order_queries w))
             [desc (EAttr "Music" "name")]); [reflexivity| |reflexivity].
  repeat constructor; simpl; intuition discriminate.
Defined.

(** X25. A table without a visible column cannot be queried: once the
    filters have evaluated, [query] and [select] raise [IndexError], the
    fallback finding no first column. *)
Theorem no_visible_column (w : World) (base : Query) :
  Table.columns w = [] ->
  Table.build_base_query w = Ok base ->
  fst (Table.query w) = Raise IndexError
  /\ forall offset limit, fst (Table.select offset limit w) = Raise IndexError.
Proof.
  intros Hcols Hbase.
  assert (Hq : forall w0, Table.columns w0 = [] -> Table.build_base_query w0 = Ok base ->
                          Table.query w0 = (Raise IndexError, w0)).
  { intros w0 Hc Hb. unfold Table.query, bindM, read, lift.
    rewrite Hb, (fallback_without_column _ Hc). reflexivity. }
  split; [rewrite (Hq w Hcols Hbase); reflexivity|].
  intros offset limit. rewrite select_unfold.
  rewrite (Hq (rows_reset w)); [reflexivity|exact Hcols|].
  rewrite build_base_query_rows_reset. exact Hbase.
Qed.

Lemma no_visible_column_witness :
  let w := {| column_at := Sample.columns []; stdout := [];
              table := {| cls := Mapped Sample.Music; label := "Music";
                          unit_label := "row"; _filters := []; rows := [];
                          _columns := [0]; _count := None;
                          session := Sample.two_records;
                          pager := pager_defaults |} |} in
  fst (Table.select (PyInt 0) (PyInt 10) w) = Raise IndexError.
Proof.
  intros w. apply (proj2 (no_visible_column w _ eq_refl eq_refl)).
Defined.

(** *** Materialising the rows, continued *)

Lemma select_cells_table (w : World) (i : nat) (row : Instance) (j : nat)
    (columns : list loc) (_row : list Cell.t) :
  columns <> [] ->
  table (snd (Table.select_cells i row j columns _row w)) = table w.
Proof.
  destruct columns as [|l columns]; [contradiction|]. intros _.
  cbn [Table.select_cells]. unfold bindM, read, emit, lift.
  rewrite default_is_unbound. reflexivity.
Qed.

Lemma select_rows_table (w : World) (i : nat) (q : list Instance) :
  Table.columns w <> [] ->
  table (snd (Table.select_rows i q w)) = table w.
Proof.
  intros Hcols. destruct q as [|row q]; [reflexivity|].
  cbn [Table.select_rows]. unfold bindM at 1.
  destruct (emit_only_prints (Pprint_table (sa_table row)) w) as (w1 & -> & Hc1 & Ht1).
  unfold bindM at 1.
  destruct (emit_only_prints Print_nothing w1) as (w2 & -> & Hc2 & Ht2).
  unfold bindM at 1.
  destruct (print_columns_only_prints (sa_table row) w2) as (w3 & -> & Hc3 & Ht3).
  unfold bindM at 1. unfold read at 1. unfold bindM at 1.
  assert (Hcols3 : Table.columns w3 <> []).
  { rewrite (columns_frame w2 w3), (columns_frame w1 w2), (columns_frame w w1);
      congruence. }
  pose proof (select_cells_raises w3 i row 0 _ [] Hcols3) as Hr.
  pose proof (select_cells_table w3 i row 0 _ [] Hcols3) as Ht.
  destruct (Table.select_cells i row 0 (Table.columns w3) [] w3) as [[_row|e] w4];
    simpl in Hr; [discriminate Hr|].
  cbn [snd] in Ht |- *. congruence.
Qed.

(** X26. [select] never leaves a row in the table: whether it returns or
    raises, and whatever the session yields, [table.rows] is empty
    afterwards. *)
Theorem select_leaves_no_row (w : World) (offset limit : PyVal) :
  rows (table (snd (Table.select offset limit w))) = [].
Proof.
  rewrite select_unfold.
  destruct (Table.query (rows_reset w)) as [[q|e] w1] eqn:Hq.
  2: { apply query_frame in Hq as (Ht & _). cbn [snd]. rewrite Ht. reflexivity. }
  destruct (query_ok _ _ _ Hq) as [Hcols Htable].
  pose proof (select_rows_table w1 0
                (fetch (session (table w1)) (Table.sliced q offset limit)) Hcols) as Hrows.
  destruct (Table.select_rows 0 _ w1) as [[[]|e] w2]; cbn [snd] in Hrows.
  2: { cbn [snd]. rewrite Hrows, Htable. reflexivity. }
  assert (H2 : rows (table w2) = []) by (rewrite Hrows, Htable; reflexivity).
  destruct (Table.count w2) as [count|e]; [|exact H2].
  destruct (Pager.init limit offset (PyInt count) (PyInt 10)) as [pager|e]; [|exact H2].
  exact H2.
Qed.

(** X27. When [select] returns, the pager of the table is the one built
    from the limit and the offset of the call and from the count of the base
    query of the table as it was before the call, with the padding 10. *)
Theorem select_pager (w w' : World) (offset limit : PyVal) :
  Table.select offset limit w = (Ok tt, w') ->
  exists base,
    Table.build_base_query w = Ok base
    /\ Pager.init limit offset (PyInt (count_rows (session (table w)) base)) (PyInt 10)
       = Ok (pager (table w')).
Proof.
  rewrite select_unfold.
  destruct (Table.query (rows_reset w)) as [[q|e] w1] eqn:Hq; [|discriminate].
  destruct (query_ok _ _ _ Hq) as [Hcols Htable].
  pose proof Hq as Hframe. apply query_frame in Hframe as (_ & _ & Hc).
  assert (Hbase : Table.build_base_query w1 = Table.build_base_query w).
  { rewrite <- (build_base_query_rows_reset w). apply build_base_query_same.
    - split; [rewrite Htable; reflexivity|].
      intros l. destruct (Hc l) as [-> | ->]; reflexivity.
    - rewrite Htable. reflexivity.
    - rewrite Htable. reflexivity. }
  destruct (Table.select_rows 0 _ w1) as [[[]|e] w2] eqn:Hrows; [|discriminate].
  pose proof (select_rows_ok _ _ _ _ Hcols Hrows) as Hempty.
  rewrite Hempty in Hrows. cbn in Hrows. injection Hrows as <-.
  unfold Table.count. rewrite Hbase.
  destruct (Table.build_base_query w) as [base|e]; [|discriminate]. simpl.
  rewrite Htable. change (session (table (rows_reset w))) with (session (table w)).
  destruct (Pager.init limit offset _ (PyInt 10)) as [pg|e] eqn:Hp; [|discriminate].
  unfold Table.update_table. intros [= <-]. exists base. split; [reflexivity|].
  rewrite Hp. reflexivity.
Qed.

Lemma select_pager_witness :
  pager (table (snd (Table.select (PyStr "20") (PyInt 10)
                       (Sample.world [] [] Sample.no_record))))
  = {| Pager.limit := 10; Pager.offset := 20; Pager.count := 0; Pager.padding := 10 |}.
Proof.
  destruct (select_pager (Sample.world [] [] Sample.no_record)
              (snd (Table.select (PyStr "20") (PyInt 10)
                      (Sample.world [] [] Sample.no_record)))
              (PyStr "20") (PyInt 10) eq_refl) as (base & _ & _).
  reflexivity.
Defined.

(** *** Filters on columns *)

(** X28. A search filter added to a column of the table, visible or hidden,
    takes part in the set: once added, its predicate is among the
    alternatives that [IlikeSet.__query__] returns (all search filters
    evaluating). *)
Theorem column_filter_joins_set (w : World) (self : IlikeSet.t) (l : loc)
    (f : ilike_instance) (p : pred) :
  In l (_columns (table w)) ->
  ilike_instance_query f = Ok (Some p) ->
  let w' := snd (Column_add_filter l (FIlike f) w) in
  all_evaluate w' (all_filters w') ->
  exists ps, IlikeSet.query w' self = Ok (Some (or_ ps)) /\ In p ps.
Proof.
  intros Hl Hf w' Hall.
  assert (Hin : In (FIlike f) (all_filters w')).
  { unfold all_filters. apply in_flat_map. exists l. split; [exact Hl|].
    subst w'. unfold Column_add_filter, Table.update_column. cbn.
    rewrite Nat.eqb_refl. cbn. apply in_app_iff. right. left. reflexivity. }
  assert (Hp : In p (flat_map active_pred (all_filters w'))).
  { apply in_flat_map. exists (FIlike f). split; [exact Hin|].
    simpl. rewrite Hf. left. reflexivity. }
  unfold IlikeSet.query. rewrite (query_columns_spec w').
  - cbn [app mbind result_bind Py.bind]. fold (all_filters w').
    destruct (flat_map active_pred (all_filters w')) as [|p0 ps]; [destruct Hp|].
    exists (p0 :: ps). split; [reflexivity|exact Hp].
  - fold (all_filters w'). unfold all_evaluate in Hall.
    eapply List.Forall_impl; [|exact Hall]. intros g Hg _. exact Hg.
Qed.

Lemma column_filter_joins_set_witness :
  let args : gmap string string :=
    {[ "search_music.type" := "id"; "search_music.word" := "7" ]} in
  exists ps,
    IlikeSet.query
      (snd (Column_add_filter 0 (FIlike (AnEqual (Sample.id_equal args)))
              (Sample.world [] [] Sample.two_records)))
      Sample.search_set = Ok (Some (or_ ps))
    /\ In (equals (EAttr "Music" "id") (PyInt 7)) ps.
Proof.
  cbn zeta.
  apply (column_filter_joins_set (Sample.world [] [] Sample.two_records)
           Sample.search_set 0).
  - simpl. auto.
  - reflexivity.
  - repeat constructor; eexists; reflexivity.
Defined.
